(** * AuthProvider: the client-side session manager of src/AuthProvider.jsx

    A shallow embedding of the React component [AuthProvider] and of the
    four operations it runs or exposes ([initializeAuth], [login],
    [register], [logout]), followed by the properties of the session they
    maintain.

    Modelling choices.
    - JavaScript values are the values axios hands back for a response
      body: [undefined], [null], booleans, IEEE doubles, strings, arrays
      and plain objects (own data properties only).
    - The component state ([user], [token], [loading]) and the ['token']
      item of [localStorage] form the [world]; every operation is a
      function of the world, in a state-and-exception monad that also
      records the effects it performs, in program order.
    - [await] is sequential: one operation runs from its first statement
      to its last without another one interleaved.
    - The backend is any function from requests to a resolved response or
      a rejection; the string conversion [Storage.setItem] applies to a
      value that is not a string is any partial function (no result: the
      conversion throws). *)

From Stdlib Require Import Floats.
From stdpp Require Import gmap strings list fin_maps.

Set Default Proof Using "Type".

(** ** JavaScript values *)

#[warnings="-register-all"]
Inductive jsval : Type :=
| JUndefined
| JNull
| JBool (b : bool)
| JNum (x : float)
| JStr (s : string)
| JArr (items : list jsval)
| JObj (fields : gmap string jsval).

(** ToBoolean: [undefined], [null], [false], [0], [-0], [NaN] and [''] are
    falsy, everything else (every array and object included) is truthy. *)
Definition truthy (v : jsval) : bool :=
  match v with
  | JUndefined | JNull => false
  | JBool b => b
  | JNum x => negb (PrimFloat.eqb x 0%float || negb (PrimFloat.eqb x x))
  | JStr s => negb (String.eqb s "")
  | JArr _ | JObj _ => true
  end.

(** [a || b] on values that are already evaluated. *)
Definition js_or (a b : jsval) : jsval := if truthy a then a else b.

Definition nullish (v : jsval) : bool :=
  match v with
  | JUndefined | JNull => true
  | _ => false
  end.

(** [v === 'lit'] for a string literal. *)
Definition strict_eq_str (v : jsval) (lit : string) : bool :=
  match v with
  | JStr s => String.eqb s lit
  | _ => false
  end.

(** [v.k] on a value that is neither [undefined] nor [null], for the data
    properties this module reads ([user], [access_token], [role], [error],
    [message]): none of them lives on a built-in prototype, so only a plain
    object can carry one. *)
Definition own (v : jsval) (k : string) : jsval :=
  match v with
  | JObj fields => default JUndefined (fields !! k)
  | _ => JUndefined
  end.

(** [v?.k] *)
Definition opt_own (v : jsval) (k : string) : jsval :=
  if nullish v then JUndefined else own v k.

(** An object literal [{ k1: v1, ..., kn: vn }]. *)
Definition obj (props : list (string * jsval)) : jsval :=
  JObj (list_to_map props).

(** ** Responses and errors *)

Record AxiosResponse : Type := { data : jsval }.

(** What a [catch] clause of this module can receive: an axios rejection
    ([response] is set when the server answered with an error status) or a
    [TypeError] raised by the engine ([response] is [undefined]). *)
Record JsError : Type := { response : option AxiosResponse; message : string }.

Definition TypeError (msg : string) : JsError :=
  {| response := None; message := msg |}.

(** [error.response?.data] *)
Definition response_data (error : JsError) : jsval :=
  match response error with
  | Some r => data r
  | None => JUndefined
  end.

(** ** Requests *)

Inductive http_method : Type := GET | POST.

Record request : Type :=
  { method : http_method;
    url : string;
    body : jsval;
    Authorization : option string }.

(** ** The world and the effects on it *)

Record world : Type :=
  { user : jsval;
    token : jsval;
    loading : bool;
    (** the ['token'] item of [localStorage]; [None]: no such item *)
    stored : option string }.

Inductive logged : Type :=
| LogValue (v : jsval)
| LogError (e : JsError).

Inductive event : Type :=
| SetUser (v : jsval)
| SetToken (v : jsval)
| SetLoading (b : bool)
| SetItem (s : string)
| RemoveItem
| Sent (r : request)
| Navigate (to : string)
| ConsoleError (label : string) (arg : logged)
| ConsoleLog (label : string) (arg : logged).

(** ** The monad: state, exceptions, and the effects performed *)

Inductive completion (A : Type) : Type :=
| Normal (a : A)
| Throw (e : JsError).
Arguments Normal {A} a.
Arguments Throw {A} e.

Record outcome (A : Type) : Type :=
  Outcome { result : completion A; final : world; emitted : list event }.
Arguments Outcome {A} result final emitted.
Arguments result {A} o.
Arguments final {A} o.
Arguments emitted {A} o.

Definition M (A : Type) : Type := world -> outcome A.

Definition ret {A} (a : A) : M A := fun w => Outcome (Normal a) w [].

Definition throw {A} (e : JsError) : M A := fun w => Outcome (Throw e) w [].

Definition bind {A B} (m : M A) (k : A -> M B) : M B := fun w =>
  match m w with
  | Outcome (Normal a) w1 evs1 =>
      match k a w1 with
      | Outcome c w2 evs2 => Outcome c w2 (evs1 ++ evs2)
      end
  | Outcome (Throw e) w1 evs1 => Outcome (Throw e) w1 evs1
  end.

Declare Scope js_scope.
Delimit Scope js_scope with js.
Notation "x <- m ;; k" := (bind m (fun x => k))
  (at level 100, m at next level, right associativity) : js_scope.
Notation "m ;; k" := (bind m (fun _ => k))
  (at level 100, right associativity) : js_scope.
Open Scope js_scope.

(** [try { m } catch (error) { h error }] *)
Definition try_catch {A} (m : M A) (h : JsError -> M A) : M A := fun w =>
  match m w with
  | Outcome (Normal a) w1 evs1 => Outcome (Normal a) w1 evs1
  | Outcome (Throw e) w1 evs1 =>
      match h e w1 with
      | Outcome c w2 evs2 => Outcome c w2 (evs1 ++ evs2)
      end
  end.

(** [try { m } finally { f }]: [f] runs whatever [m] did, and the completion
    of [m] (a value returned, or an exception) stands unless [f] throws. *)
Definition finally {A} (m : M A) (f : M unit) : M A := fun w =>
  match m w with
  | Outcome c w1 evs1 =>
      match f w1 with
      | Outcome (Normal _) w2 evs2 => Outcome c w2 (evs1 ++ evs2)
      | Outcome (Throw e) w2 evs2 => Outcome (Throw e) w2 (evs1 ++ evs2)
      end
  end.

(** ** React state setters, the router, the console *)

Definition setUser (v : jsval) : M unit := fun w =>
  Outcome (Normal tt)
    {| user := v; token := token w; loading := loading w; stored := stored w |}
    [SetUser v].

Definition setToken (v : jsval) : M unit := fun w =>
  Outcome (Normal tt)
    {| user := user w; token := v; loading := loading w; stored := stored w |}
    [SetToken v].

Definition setLoading (b : bool) : M unit := fun w =>
  Outcome (Normal tt)
    {| user := user w; token := token w; loading := b; stored := stored w |}
    [SetLoading b].

Definition navigate (to : string) : M unit := fun w =>
  Outcome (Normal tt) w [Navigate to].

Definition console_error (label : string) (arg : logged) : M unit := fun w =>
  Outcome (Normal tt) w [ConsoleError label arg].

Definition console_log (label : string) (arg : logged) : M unit := fun w =>
  Outcome (Normal tt) w [ConsoleLog label arg].

(** [v.k]: a [TypeError] on [undefined] and [null]. *)
Definition get (v : jsval) (k : string) : M jsval :=
  match v with
  | JUndefined =>
      throw (TypeError ("Cannot read properties of undefined (reading '" +:+ k +:+ "')"))
  | JNull =>
      throw (TypeError ("Cannot read properties of null (reading '" +:+ k +:+ "')"))
  | _ => ret (own v k)
  end.

(** ** localStorage *)

(** [localStorage.getItem('token')]: the string, or [null]. *)
Definition item (w : world) : jsval :=
  match stored w with
  | Some s => JStr s
  | None => JNull
  end.

Definition getItem : M jsval := fun w => Outcome (Normal (item w)) w [].

Definition removeItem : M unit := fun w =>
  Outcome (Normal tt)
    {| user := user w; token := token w; loading := loading w; stored := None |}
    [RemoveItem].

Section AuthProvider.

(** [process.env.REACT_APP_BACKEND_URL] *)
Variable REACT_APP_BACKEND_URL : option string.

(** The server behind axios: a request resolves with a response or is
    rejected with an error. *)
Variable backend : request -> AxiosResponse + JsError.

(** The conversion to a string of a value that is not one; [None] when
    the conversion throws. *)
Variable ToString : jsval -> option string.

Definition BACKEND_URL : string :=
  match REACT_APP_BACKEND_URL with
  | Some s => if String.eqb s "" then "" else s
  | None => ""
  end.

Definition API : string := BACKEND_URL +:+ "/api".

(** The string [Storage.setItem] stores for a value: a string as it is. *)
Definition DOMString (v : jsval) : option string :=
  match v with
  | JStr s => Some s
  | _ => ToString v
  end.

(** [localStorage.setItem('token', v)]: the item holds a string. *)
Definition setItem (v : jsval) : M unit := fun w =>
  match DOMString v with
  | Some s =>
      Outcome (Normal tt)
        {| user := user w; token := token w; loading := loading w;
           stored := Some s |}
        [SetItem s]
  | None => Outcome (Throw (TypeError "Cannot convert object to primitive value")) w []
  end.

(** The request interceptor: the stored token, when there is one, goes
    into the Authorization header of every request. *)
Definition interceptor (w : world) (m : http_method) (u : string) (b : jsval)
  : request :=
  {| method := m; url := u; body := b;
     Authorization :=
       match stored w with
       | Some storedToken =>
           if truthy (JStr storedToken) then Some ("Bearer " +:+ storedToken)
           else None
       | None => None
       end |}.

Definition axios (m : http_method) (u : string) (b : jsval) : M AxiosResponse :=
  fun w =>
    let req := interceptor w m u b in
    match backend req with
    | inl r => Outcome (Normal r) w [Sent req]
    | inr e => Outcome (Throw e) w [Sent req]
    end.

Definition axios_get (u : string) : M AxiosResponse := axios GET u JUndefined.
Definition axios_post (u : string) (b : jsval) : M AxiosResponse := axios POST u b.

(** The requests the four operations send, as they leave the interceptor. *)
Definition me_request (w : world) : request :=
  interceptor w GET (API +:+ "/auth/me/") JUndefined.

Definition login_request (w : world) (email password : jsval) : request :=
  interceptor w POST (API +:+ "/auth/login/")
    (obj [("email", email); ("password", password)]).

Definition register_request (w : world) (email password name role : jsval)
  : request :=
  interceptor w POST (API +:+ "/auth/register/")
    (obj [("email", email); ("password", password); ("name", name);
          ("role", match role with JUndefined => JStr "customer" | _ => role end)]).

Definition logout_request (w : world) : request :=
  interceptor w POST (API +:+ "/auth/logout/") JUndefined.

(** *** initializeAuth (lines 40-67) *)
Definition initializeAuth : M unit :=
  setLoading true ;;
  finally
    (try_catch
       (storedToken <- getItem ;;
        if negb (truthy storedToken) then
          setUser JNull ;;
          setLoading false ;;
          ret tt
        else
          response <- axios_get (API +:+ "/auth/me/") ;;
          data_user <- get (data response) "user" ;;
          let userData := js_or data_user (data response) in
          setUser userData ;;
          access_token <- get userData "access_token" ;;
          let realToken := js_or access_token storedToken in
          if truthy realToken then
            setItem realToken ;;
            setToken realToken
          else ret tt)
       (fun error =>
          console_error "Error fetching user during init:" (LogError error) ;;
          setUser JNull ;;
          setToken JNull ;;
          removeItem))
    (setLoading false).

(** [error.response?.data?.error || error.response?.data?.message || fallback] *)
Definition failure_message (error : JsError) (fallback : string) : jsval :=
  js_or (js_or (opt_own (response_data error) "error")
               (opt_own (response_data error) "message"))
        (JStr fallback).

(** *** login (lines 72-106) *)
Definition login (email password : jsval) : M jsval :=
  setLoading true ;;
  finally
    (try_catch
       (response <- axios_post (API +:+ "/auth/login/")
                      (obj [("email", email); ("password", password)]) ;;
        userData <- get (data response) "user" ;;
        access_token <- get (data response) "access_token" ;;
        (if truthy access_token then
           setItem access_token ;;
           setToken access_token
         else ret tt) ;;
        setUser userData ;;
        role <- get userData "role" ;;
        (if strict_eq_str role "admin" then navigate "/dashboard/admin"
         else navigate "/dashboard/customer") ;;
        ret (obj [("success", JBool true)]))
       (fun error =>
          console_error "Login error:"
            (LogValue (js_or (response_data error) (JStr (message error)))) ;;
          setUser JNull ;;
          setToken JNull ;;
          removeItem ;;
          ret (obj [("success", JBool false);
                    ("error", failure_message error "Login failed")])))
    (setLoading false).

(** *** register (lines 108-148); [role] defaults to ['customer'] when the
    caller passes [undefined]. *)
Definition register (email password name role : jsval) : M jsval :=
  let role := match role with JUndefined => JStr "customer" | _ => role end in
  setLoading true ;;
  finally
    (try_catch
       (response <- axios_post (API +:+ "/auth/register/")
                      (obj [("email", email); ("password", password);
                            ("name", name); ("role", role)]) ;;
        userData <- get (data response) "user" ;;
        access_token <- get (data response) "access_token" ;;
        (if truthy access_token then
           setItem access_token ;;
           setToken access_token
         else ret tt) ;;
        setUser userData ;;
        role <- get userData "role" ;;
        (if strict_eq_str role "admin" then navigate "/dashboard/admin"
         else navigate "/dashboard/customer") ;;
        ret (obj [("success", JBool true)]))
       (fun error =>
          console_error "Registration error:"
            (LogValue (js_or (response_data error) (JStr (message error)))) ;;
          setUser JNull ;;
          setToken JNull ;;
          removeItem ;;
          ret (obj [("success", JBool false);
                    ("error", failure_message error "Registration failed")])))
    (setLoading false).

(** *** logout (lines 150-161) *)
Definition logout : M unit :=
  finally
    (try_catch
       (axios_post (API +:+ "/auth/logout/") JUndefined ;;
        ret tt)
       (fun err =>
          console_log "Logout error (ignored):" (LogError err)))
    (setUser JNull ;;
     setToken JNull ;;
     removeItem ;;
     navigate "/").

End AuthProvider.

(** ** What the properties speak about *)

(** The session is cleared: no user, no token, no persisted token. *)
Definition cleared (w : world) : Prop :=
  user w = JNull /\ token w = JNull /\ stored w = None.

(** Every clearing of the token ([setToken(null)], or the removal of the
    persisted item) stands in one block with the clearing of the user:
    [setUser(null); setToken(null); localStorage.removeItem('token')]. *)
Fixpoint cleared_together (evs : list event) : bool :=
  match evs with
  | [] => true
  | SetUser JNull :: SetToken JNull :: RemoveItem :: rest => cleared_together rest
  | SetToken JNull :: _ => false
  | RemoveItem :: _ => false
  | _ :: rest => cleared_together rest
  end.

Definition clears_token (ev : event) : bool :=
  match ev with
  | SetToken JNull | RemoveItem => true
  | _ => false
  end.

(** An error was caught and logged: the operation went through a [catch]. *)
Definition logs_error (ev : event) : bool :=
  match ev with
  | ConsoleError _ _ | ConsoleLog _ _ => true
  | _ => false
  end.

Definition is_sent (ev : event) : bool :=
  match ev with
  | Sent _ => true
  | _ => false
  end.

Definition touches_item (ev : event) : bool :=
  match ev with
  | SetItem _ | RemoveItem => true
  | _ => false
  end.

Definition navigations (evs : list event) : list string :=
  omap (fun ev => match ev with Navigate to => Some to | _ => None end) evs.

(** The invariant of the session, on the outcome of one operation. *)
Definition consistent {A} (o : outcome A) : Prop :=
  cleared_together (emitted o) = true /\
  (existsb clears_token (emitted o) = true -> cleared (final o)) /\
  (existsb logs_error (emitted o) = true -> cleared (final o)).

(** The value [login] and [register] hand back: an object with a [success]
    flag, and with a truthy [error] when the flag is [false]. *)
Definition tagged_result (c : completion jsval) : Prop :=
  exists fields : gmap string jsval,
    c = Normal (JObj fields) /\
    ((fields !! "success" = Some (JBool true) /\ fields !! "error" = None) \/
     (fields !! "success" = Some (JBool false) /\
      exists msg, fields !! "error" = Some msg /\ truthy msg = true)).

Definition success_result : jsval := obj [("success", JBool true)].

Definition failure_result (msg : jsval) : jsval :=
  obj [("success", JBool false); ("error", msg)].

(** Where the router is sent after a login or a registration. *)
Definition dashboard (userData : jsval) : string :=
  if strict_eq_str (own userData "role") "admin" then "/dashboard/admin"
  else "/dashboard/customer".

(** ** The component when it mounts, and sample backends *)

(** The initial state (lines 15-17): no user, the token read from
    [localStorage], loading. *)
Definition mount (persisted : option string) : world :=
  {| user := JNull;
     token := match persisted with Some s => JStr s | None => JNull end;
     loading := true;
     stored := persisted |}.

(** A session in progress: a customer signed in with token ["old"]. *)
Definition signed_in : world :=
  {| user := obj [("role", JStr "customer")]; token := JStr "old";
     loading := false; stored := Some "old" |}.

(** A backend that answers every request with the body [d]. *)
Definition answers (d : jsval) : request -> AxiosResponse + JsError :=
  fun _ => inl {| data := d |}.

(** A backend that rejects every request with [e]. *)
Definition rejects (e : JsError) : request -> AxiosResponse + JsError :=
  fun _ => inr e.

(** An error status whose body is [payload]. *)
Definition http_error (payload : jsval) : JsError :=
  {| response := Some {| data := payload |};
     message := "Request failed with status code 401" |}.

Definition network_error : JsError :=
  {| response := None; message := "Network Error" |}.

(** A conversion that throws on every value that is not a string. *)
Definition no_conversion : jsval -> option string := fun _ => None.

(** ** Requests, sequences of operations, and the sessions they reach *)

(** The requests among the effects of an operation, in the order sent. *)
Definition requests (evs : list event) : list request :=
  omap (fun ev => match ev with Sent r => Some r | _ => None end) evs.

(** The Authorization header the persisted token gives a request: none
    without an item, and none for an empty one. *)
Definition bearer (w : world) : option string :=
  match stored w with
  | Some st => if String.eqb st "" then None else Some ("Bearer " +:+ st)
  | None => None
  end.

Definition sets_loading (ev : event) : bool :=
  match ev with
  | SetLoading _ => true
  | _ => false
  end.

(** No user, no token, nothing persisted, not loading: where a failed
    [login], [register] or [initializeAuth] leaves the session. *)
Definition logged_out : world :=
  {| user := JNull; token := JNull; loading := false; stored := None |}.

(** What the provider runs on mount and what it hands to its consumers. *)
Inductive operation : Type :=
| Initialize
| Login (email password : jsval)
| Register (email password name role : jsval)
| Logout.

(** The session an operation leaves behind. *)
Definition after (env : option string)
    (backend : request -> AxiosResponse + JsError)
    (ToString : jsval -> option string) (op : operation) (w : world) : world :=
  match op with
  | Initialize => final (initializeAuth env backend ToString w)
  | Login email password => final (login env backend ToString email password w)
  | Register email password name role =>
      final (register env backend ToString email password name role w)
  | Logout => final (logout env backend w)
  end.

(** The sessions the component can be in: the one it mounts with, and the
    ones its operations lead to, the backend answering as it likes at every
    step. *)
Inductive reachable (env : option string) (ToString : jsval -> option string)
  : world -> Prop :=
| reachable_mount persisted : reachable env ToString (mount persisted)
| reachable_after backend op w :
    reachable env ToString w ->
    reachable env ToString (after env backend ToString op w).

(** The token in the state is the persisted one: both absent, or the item
    holds the string [localStorage] keeps for the token. *)
Definition token_persisted (ToString : jsval -> option string) (w : world)
  : Prop :=
  (token w = JNull /\ stored w = None) \/
  (token w <> JNull /\
   exists s, DOMString ToString (token w) = Some s /\ stored w = Some s).

(** The ways a [login] or a [register] started in [w] can end. *)
Inductive sign_in_outcome (ToString : jsval -> option string) (w : world)
    (o : outcome jsval) : Prop :=
| sign_in_failed msg :
    truthy msg = true ->
    result o = Normal (failure_result msg) ->
    final o = logged_out ->
    navigations (emitted o) = [] ->
    existsb logs_error (emitted o) = true ->
    sign_in_outcome ToString w o
| sign_in_with_token userData access_token s :
    nullish userData = false ->
    truthy access_token = true ->
    DOMString ToString access_token = Some s ->
    result o = Normal success_result ->
    final o = {| user := userData; token := access_token; loading := false;
                 stored := Some s |} ->
    navigations (emitted o) = [dashboard userData] ->
    existsb logs_error (emitted o) = false ->
    sign_in_outcome ToString w o
| sign_in_without_token userData :
    nullish userData = false ->
    result o = Normal success_result ->
    final o = {| user := userData; token := token w; loading := false;
                 stored := stored w |} ->
    navigations (emitted o) = [dashboard userData] ->
    existsb logs_error (emitted o) = false ->
    sign_in_outcome ToString w o.

(** The ways [initializeAuth] started in [w] can end. *)
Inductive restore_outcome (ToString : jsval -> option string) (w : world)
    (o : outcome unit) : Prop :=
| restore_skipped :
    truthy (item w) = false ->
    final o = {| user := JNull; token := token w; loading := false;
                 stored := stored w |} ->
    existsb is_sent (emitted o) = false ->
    existsb logs_error (emitted o) = false ->
    restore_outcome ToString w o
| restore_failed :
    truthy (item w) = true ->
    final o = logged_out ->
    existsb is_sent (emitted o) = true ->
    existsb logs_error (emitted o) = true ->
    restore_outcome ToString w o
| restore_done userData realToken s :
    truthy (item w) = true ->
    nullish userData = false ->
    truthy realToken = true ->
    DOMString ToString realToken = Some s ->
    final o = {| user := userData; token := realToken; loading := false;
                 stored := Some s |} ->
    existsb is_sent (emitted o) = true ->
    existsb logs_error (emitted o) = false ->
    restore_outcome ToString w o.

(** * Properties *)

(** ** Values *)

Lemma truthy_js_or a b : truthy (js_or a b) = truthy a || truthy b.
Proof. unfold js_or. destruct (truthy a) eqn:Ha; [rewrite Ha|]; done. Qed.

Lemma js_or_truthy a b : truthy a = true -> js_or a b = a.
Proof. unfold js_or. by intros ->. Qed.

Lemma js_or_falsy a b : truthy a = false -> js_or a b = b.
Proof. unfold js_or. by intros ->. Qed.

Lemma truthy_JStr s : truthy (JStr s) = true <-> s <> "".
Proof.
  unfold truthy. destruct (String.eqb_spec s ""); simpl; split; congruence.
Qed.

Lemma truthy_not_nullish v : truthy v = true -> nullish v = false.
Proof. by destruct v. Qed.

Lemma own_not_nullish v k : nullish (own v k) = false -> nullish v = false.
Proof. by destruct v. Qed.

Lemma opt_own_own v k : opt_own v k = own v k.
Proof. by destruct v. Qed.

Lemma get_not_nullish v k : nullish v = false -> get v k = ret (own v k).
Proof. by destruct v. Qed.

Lemma get_nullish v k w :
  nullish v = true ->
  exists msg, get v k w = Outcome (Throw (TypeError msg)) w [].
Proof. destruct v; try done; intros _; eexists; reflexivity. Qed.

Lemma failure_message_truthy error fallback :
  fallback <> "" -> truthy (failure_message error fallback) = true.
Proof.
  intros Hne. unfold failure_message. rewrite !truthy_js_or.
  apply truthy_JStr in Hne. rewrite Hne. by rewrite orb_true_r.
Qed.

Lemma failure_message_TypeError msg fallback :
  failure_message (TypeError msg) fallback = JStr fallback.
Proof. reflexivity. Qed.

Lemma success_result_tagged : tagged_result (Normal success_result).
Proof. eexists. split; [reflexivity|]. left. by split. Qed.

Lemma failure_result_tagged msg :
  truthy msg = true -> tagged_result (Normal (failure_result msg)).
Proof.
  intros Hmsg. eexists. split; [reflexivity|]. right. split; [done|].
  exists msg. split; [|done].
  by rewrite list_to_map_cons, lookup_insert_ne, list_to_map_cons, lookup_insert_eq.
Qed.

Lemma fetched_user_not_nullish d :
  nullish d = false -> nullish (js_or (own d "user") d) = false.
Proof.
  intros Hd. unfold js_or. destruct (truthy (own d "user")) eqn:Hu; [|done].
  by apply truthy_not_nullish.
Qed.

Lemma real_token_truthy a t : truthy t = true -> truthy (js_or a t) = true.
Proof. intros Ht. rewrite truthy_js_or, Ht. apply orb_true_r. Qed.

(** ** One lemma per path through each operation *)

Section Paths.

Variable env : option string.
Variable backend : request -> AxiosResponse + JsError.
Variable ToString : jsval -> option string.

#[local] Arguments get : simpl never.
#[local] Arguments own : simpl never.
#[local] Arguments js_or : simpl never.
#[local] Arguments truthy : simpl never.
#[local] Arguments obj : simpl never.
#[local] Arguments DOMString : simpl never.
#[local] Arguments failure_message : simpl never.

Ltac run op :=
  unfold op, finally, try_catch, bind, getItem, item, axios_get, axios_post, axios,
    me_request, login_request, register_request, logout_request, interceptor,
    setItem in *;
  cbn in *.

Ltac step :=
  match goal with
  | H : ?x = _ |- context [?x] => rewrite H; cbn
  | H : nullish ?v = false |- context [get ?v ?k] =>
      rewrite (get_not_nullish v k H); cbn
  end.

Lemma initializeAuth_no_item w :
  truthy (item w) = false ->
  initializeAuth env backend ToString w =
  Outcome (Normal tt)
    {| user := JNull; token := token w; loading := false; stored := stored w |}
    [SetLoading true; SetUser JNull; SetLoading false; SetLoading false].
Proof. intros H. run initializeAuth. by repeat step. Qed.

Lemma initializeAuth_rejected w e :
  truthy (item w) = true ->
  backend (me_request env w) = inr e ->
  initializeAuth env backend ToString w =
  Outcome (Normal tt)
    {| user := JNull; token := JNull; loading := false; stored := None |}
    [SetLoading true; Sent (me_request env w);
     ConsoleError "Error fetching user during init:" (LogError e);
     SetUser JNull; SetToken JNull; RemoveItem; SetLoading false].
Proof. intros H Hb. run initializeAuth. by repeat step. Qed.

Lemma initializeAuth_no_body w r :
  truthy (item w) = true ->
  backend (me_request env w) = inl r ->
  nullish (data r) = true ->
  exists msg,
    initializeAuth env backend ToString w =
    Outcome (Normal tt)
      {| user := JNull; token := JNull; loading := false; stored := None |}
      [SetLoading true; Sent (me_request env w);
       ConsoleError "Error fetching user during init:" (LogError (TypeError msg));
       SetUser JNull; SetToken JNull; RemoveItem; SetLoading false].
Proof.
  intros H Hb Hd. run initializeAuth. repeat step.
  destruct (data r); try done; eexists; reflexivity.
Qed.

Lemma initializeAuth_resolved w r s :
  truthy (item w) = true ->
  backend (me_request env w) = inl r ->
  nullish (data r) = false ->
  let userData := js_or (own (data r) "user") (data r) in
  let realToken := js_or (own userData "access_token") (item w) in
  DOMString ToString realToken = Some s ->
  initializeAuth env backend ToString w =
  Outcome (Normal tt)
    {| user := userData; token := realToken; loading := false; stored := Some s |}
    [SetLoading true; Sent (me_request env w); SetUser userData;
     SetItem s; SetToken realToken; SetLoading false].
Proof.
  intros H Hb Hd userData realToken Hs.
  pose proof (fetched_user_not_nullish _ Hd) as Hu.
  pose proof (real_token_truthy (own userData "access_token") _ H) as Ht.
  run initializeAuth. repeat step. fold userData. repeat step. fold realToken.
  by repeat step.
Qed.

Lemma initializeAuth_unstorable w r :
  truthy (item w) = true ->
  backend (me_request env w) = inl r ->
  nullish (data r) = false ->
  let userData := js_or (own (data r) "user") (data r) in
  let realToken := js_or (own userData "access_token") (item w) in
  DOMString ToString realToken = None ->
  exists msg,
    initializeAuth env backend ToString w =
    Outcome (Normal tt)
      {| user := JNull; token := JNull; loading := false; stored := None |}
      [SetLoading true; Sent (me_request env w); SetUser userData;
       ConsoleError "Error fetching user during init:" (LogError (TypeError msg));
       SetUser JNull; SetToken JNull; RemoveItem; SetLoading false].
Proof.
  intros H Hb Hd userData realToken Hs.
  pose proof (fetched_user_not_nullish _ Hd) as Hu.
  pose proof (real_token_truthy (own userData "access_token") _ H) as Ht.
  eexists.
  run initializeAuth. repeat step. fold userData. repeat step. fold realToken.
  repeat step. reflexivity.
Qed.

(** *** login *)

Lemma login_rejected email password w e :
  backend (login_request env w email password) = inr e ->
  login env backend ToString email password w =
  Outcome (Normal (failure_result (failure_message e "Login failed")))
    {| user := JNull; token := JNull; loading := false; stored := None |}
    [SetLoading true; Sent (login_request env w email password);
     ConsoleError "Login error:"
       (LogValue (js_or (response_data e) (JStr (message e))));
     SetUser JNull; SetToken JNull; RemoveItem; SetLoading false].
Proof. intros Hb. run login. by repeat step. Qed.

Lemma login_no_body email password w r :
  backend (login_request env w email password) = inl r ->
  nullish (data r) = true ->
  exists msg,
    login env backend ToString email password w =
    Outcome (Normal (failure_result (JStr "Login failed")))
      {| user := JNull; token := JNull; loading := false; stored := None |}
      [SetLoading true; Sent (login_request env w email password);
       ConsoleError "Login error:" (LogValue (JStr msg));
       SetUser JNull; SetToken JNull; RemoveItem; SetLoading false].
Proof.
  intros Hb Hd. run login. repeat step.
  destruct (data r); try done; eexists; reflexivity.
Qed.

Lemma login_unstorable email password w r :
  backend (login_request env w email password) = inl r ->
  nullish (data r) = false ->
  truthy (own (data r) "access_token") = true ->
  DOMString ToString (own (data r) "access_token") = None ->
  exists msg,
    login env backend ToString email password w =
    Outcome (Normal (failure_result (JStr "Login failed")))
      {| user := JNull; token := JNull; loading := false; stored := None |}
      [SetLoading true; Sent (login_request env w email password);
       ConsoleError "Login error:" (LogValue (JStr msg));
       SetUser JNull; SetToken JNull; RemoveItem; SetLoading false].
Proof.
  intros Hb Hd Ht Hs. eexists. run login. repeat step. reflexivity.
Qed.

Lemma login_no_user_with_token email password w r s :
  backend (login_request env w email password) = inl r ->
  nullish (data r) = false ->
  truthy (own (data r) "access_token") = true ->
  DOMString ToString (own (data r) "access_token") = Some s ->
  nullish (own (data r) "user") = true ->
  exists msg,
    login env backend ToString email password w =
    Outcome (Normal (failure_result (JStr "Login failed")))
      {| user := JNull; token := JNull; loading := false; stored := None |}
      [SetLoading true; Sent (login_request env w email password);
       SetItem s; SetToken (own (data r) "access_token");
       SetUser (own (data r) "user");
       ConsoleError "Login error:" (LogValue (JStr msg));
       SetUser JNull; SetToken JNull; RemoveItem; SetLoading false].
Proof.
  intros Hb Hd Ht Hs Hu. run login. repeat step.
  destruct (own (data r) "user"); try done; eexists; reflexivity.
Qed.

Lemma login_no_user_no_token email password w r :
  backend (login_request env w email password) = inl r ->
  nullish (data r) = false ->
  truthy (own (data r) "access_token") = false ->
  nullish (own (data r) "user") = true ->
  exists msg,
    login env backend ToString email password w =
    Outcome (Normal (failure_result (JStr "Login failed")))
      {| user := JNull; token := JNull; loading := false; stored := None |}
      [SetLoading true; Sent (login_request env w email password);
       SetUser (own (data r) "user");
       ConsoleError "Login error:" (LogValue (JStr msg));
       SetUser JNull; SetToken JNull; RemoveItem; SetLoading false].
Proof.
  intros Hb Hd Ht Hu. run login. repeat step.
  destruct (own (data r) "user"); try done; eexists; reflexivity.
Qed.

Lemma login_with_token email password w r s :
  backend (login_request env w email password) = inl r ->
  nullish (own (data r) "user") = false ->
  truthy (own (data r) "access_token") = true ->
  DOMString ToString (own (data r) "access_token") = Some s ->
  login env backend ToString email password w =
  Outcome (Normal success_result)
    {| user := own (data r) "user"; token := own (data r) "access_token";
       loading := false; stored := Some s |}
    [SetLoading true; Sent (login_request env w email password);
     SetItem s; SetToken (own (data r) "access_token");
     SetUser (own (data r) "user"); Navigate (dashboard (own (data r) "user"));
     SetLoading false].
Proof.
  intros Hb Hu Ht Hs. pose proof (own_not_nullish _ _ Hu) as Hd.
  run login. repeat step. unfold dashboard.
  by destruct (strict_eq_str _ _).
Qed.

Lemma login_without_token email password w r :
  backend (login_request env w email password) = inl r ->
  nullish (own (data r) "user") = false ->
  truthy (own (data r) "access_token") = false ->
  login env backend ToString email password w =
  Outcome (Normal success_result)
    {| user := own (data r) "user"; token := token w;
       loading := false; stored := stored w |}
    [SetLoading true; Sent (login_request env w email password);
     SetUser (own (data r) "user"); Navigate (dashboard (own (data r) "user"));
     SetLoading false].
Proof.
  intros Hb Hu Ht. pose proof (own_not_nullish _ _ Hu) as Hd.
  run login. repeat step. unfold dashboard.
  by destruct (strict_eq_str _ _).
Qed.

(** *** register *)

Lemma register_rejected email password name role w e :
  backend (register_request env w email password name role) = inr e ->
  register env backend ToString email password name role w =
  Outcome (Normal (failure_result (failure_message e "Registration failed")))
    {| user := JNull; token := JNull; loading := false; stored := None |}
    [SetLoading true; Sent (register_request env w email password name role);
     ConsoleError "Registration error:"
       (LogValue (js_or (response_data e) (JStr (message e))));
     SetUser JNull; SetToken JNull; RemoveItem; SetLoading false].
Proof. intros Hb. run register. by repeat step. Qed.

Lemma register_no_body email password name role w r :
  backend (register_request env w email password name role) = inl r ->
  nullish (data r) = true ->
  exists msg,
    register env backend ToString email password name role w =
    Outcome (Normal (failure_result (JStr "Registration failed")))
      {| user := JNull; token := JNull; loading := false; stored := None |}
      [SetLoading true; Sent (register_request env w email password name role);
       ConsoleError "Registration error:" (LogValue (JStr msg));
       SetUser JNull; SetToken JNull; RemoveItem; SetLoading false].
Proof.
  intros Hb Hd. run register. repeat step.
  destruct (data r); try done; eexists; reflexivity.
Qed.

Lemma register_unstorable email password name role w r :
  backend (register_request env w email password name role) = inl r ->
  nullish (data r) = false ->
  truthy (own (data r) "access_token") = true ->
  DOMString ToString (own (data r) "access_token") = None ->
  exists msg,
    register env backend ToString email password name role w =
    Outcome (Normal (failure_result (JStr "Registration failed")))
      {| user := JNull; token := JNull; loading := false; stored := None |}
      [SetLoading true; Sent (register_request env w email password name role);
       ConsoleError "Registration error:" (LogValue (JStr msg));
       SetUser JNull; SetToken JNull; RemoveItem; SetLoading false].
Proof.
  intros Hb Hd Ht Hs. eexists. run register. repeat step. reflexivity.
Qed.

Lemma register_no_user_with_token email password name role w r s :
  backend (register_request env w email password name role) = inl r ->
  nullish (data r) = false ->
  truthy (own (data r) "access_token") = true ->
  DOMString ToString (own (data r) "access_token") = Some s ->
  nullish (own (data r) "user") = true ->
  exists msg,
    register env backend ToString email password name role w =
    Outcome (Normal (failure_result (JStr "Registration failed")))
      {| user := JNull; token := JNull; loading := false; stored := None |}
      [SetLoading true; Sent (register_request env w email password name role);
       SetItem s; SetToken (own (data r) "access_token");
       SetUser (own (data r) "user");
       ConsoleError "Registration error:" (LogValue (JStr msg));
       SetUser JNull; SetToken JNull; RemoveItem; SetLoading false].
Proof.
  intros Hb Hd Ht Hs Hu. run register. repeat step.
  destruct (own (data r) "user"); try done; eexists; reflexivity.
Qed.

Lemma register_no_user_no_token email password name role w r :
  backend (register_request env w email password name role) = inl r ->
  nullish (data r) = false ->
  truthy (own (data r) "access_token") = false ->
  nullish (own (data r) "user") = true ->
  exists msg,
    register env backend ToString email password name role w =
    Outcome (Normal (failure_result (JStr "Registration failed")))
      {| user := JNull; token := JNull; loading := false; stored := None |}
      [SetLoading true; Sent (register_request env w email password name role);
       SetUser (own (data r) "user");
       ConsoleError "Registration error:" (LogValue (JStr msg));
       SetUser JNull; SetToken JNull; RemoveItem; SetLoading false].
Proof.
  intros Hb Hd Ht Hu. run register. repeat step.
  destruct (own (data r) "user"); try done; eexists; reflexivity.
Qed.

Lemma register_with_token email password name role w r s :
  backend (register_request env w email password name role) = inl r ->
  nullish (own (data r) "user") = false ->
  truthy (own (data r) "access_token") = true ->
  DOMString ToString (own (data r) "access_token") = Some s ->
  register env backend ToString email password name role w =
  Outcome (Normal success_result)
    {| user := own (data r) "user"; token := own (data r) "access_token";
       loading := false; stored := Some s |}
    [SetLoading true; Sent (register_request env w email password name role);
     SetItem s; SetToken (own (data r) "access_token");
     SetUser (own (data r) "user"); Navigate (dashboard (own (data r) "user"));
     SetLoading false].
Proof.
  intros Hb Hu Ht Hs. pose proof (own_not_nullish _ _ Hu) as Hd.
  run register. repeat step. unfold dashboard.
  by destruct (strict_eq_str _ _).
Qed.

Lemma register_without_token email password name role w r :
  backend (register_request env w email password name role) = inl r ->
  nullish (own (data r) "user") = false ->
  truthy (own (data r) "access_token") = false ->
  register env backend ToString email password name role w =
  Outcome (Normal success_result)
    {| user := own (data r) "user"; token := token w;
       loading := false; stored := stored w |}
    [SetLoading true; Sent (register_request env w email password name role);
     SetUser (own (data r) "user"); Navigate (dashboard (own (data r) "user"));
     SetLoading false].
Proof.
  intros Hb Hu Ht. pose proof (own_not_nullish _ _ Hu) as Hd.
  run register. repeat step. unfold dashboard.
  by destruct (strict_eq_str _ _).
Qed.

(** *** logout *)

Lemma logout_resolved w r :
  backend (logout_request env w) = inl r ->
  logout env backend w =
  Outcome (Normal tt)
    {| user := JNull; token := JNull; loading := loading w; stored := None |}
    [Sent (logout_request env w);
     SetUser JNull; SetToken JNull; RemoveItem; Navigate "/"].
Proof. intros Hb. run logout. by repeat step. Qed.

Lemma logout_rejected w err :
  backend (logout_request env w) = inr err ->
  logout env backend w =
  Outcome (Normal tt)
    {| user := JNull; token := JNull; loading := loading w; stored := None |}
    [Sent (logout_request env w);
     ConsoleLog "Logout error (ignored):" (LogError err);
     SetUser JNull; SetToken JNull; RemoveItem; Navigate "/"].
Proof. intros Hb. run logout. by repeat step. Qed.

(** ** Every path at once *)

Ltac values :=
  repeat match goal with
         | H : context [own _ _] |- _ => revert H
         | H : context [item _] |- _ => revert H
         end;
  repeat match goal with
         | |- context [own ?d ?k] => generalize (own d k); intro
         | |- context [item ?w] => generalize (item w); intro
         end.

Ltac settle :=
  values; unfold consistent, cleared; cbn;
  repeat match goal with
         | |- context [match ?v with JUndefined => _ | _ => _ end] =>
             destruct v
         end;
  by repeat split.

Lemma login_total email password w :
  let o := login env backend ToString email password w in
  consistent o /\ tagged_result (result o) /\ loading (final o) = false.
Proof.
  cbn zeta.
  destruct (backend (login_request env w email password)) as [r|e] eqn:Hb.
  - destruct (nullish (data r)) eqn:Hd.
    { destruct (login_no_body _ _ _ _ Hb Hd) as [msg ->].
      split; [settle|]. split; [|done]. by apply failure_result_tagged. }
    destruct (nullish (own (data r) "user")) eqn:Hu,
             (truthy (own (data r) "access_token")) eqn:Ht.
    + destruct (DOMString ToString (own (data r) "access_token")) as [s|] eqn:Hs.
      * destruct (login_no_user_with_token _ _ _ _ _ Hb Hd Ht Hs Hu) as [msg ->].
        split; [settle|]. split; [|done]. by apply failure_result_tagged.
      * destruct (login_unstorable _ _ _ _ Hb Hd Ht Hs) as [msg ->].
        split; [settle|]. split; [|done]. by apply failure_result_tagged.
    + destruct (login_no_user_no_token _ _ _ _ Hb Hd Ht Hu) as [msg ->].
      split; [settle|]. split; [|done]. by apply failure_result_tagged.
    + destruct (DOMString ToString (own (data r) "access_token")) as [s|] eqn:Hs.
      * rewrite (login_with_token _ _ _ _ _ Hb Hu Ht Hs).
        split; [settle|]. split; [|done]. apply success_result_tagged.
      * destruct (login_unstorable _ _ _ _ Hb Hd Ht Hs) as [msg ->].
        split; [settle|]. split; [|done]. by apply failure_result_tagged.
    + rewrite (login_without_token _ _ _ _ Hb Hu Ht).
      split; [settle|]. split; [|done]. apply success_result_tagged.
  - rewrite (login_rejected _ _ _ _ Hb).
    split; [settle|]. split; [|done].
    by apply failure_result_tagged, failure_message_truthy.
Qed.

Lemma register_total email password name role w :
  let o := register env backend ToString email password name role w in
  consistent o /\ tagged_result (result o) /\ loading (final o) = false.
Proof.
  cbn zeta.
  destruct (backend (register_request env w email password name role)) as [r|e] eqn:Hb.
  - destruct (nullish (data r)) eqn:Hd.
    { destruct (register_no_body _ _ _ _ _ _ Hb Hd) as [msg ->].
      split; [settle|]. split; [|done]. by apply failure_result_tagged. }
    destruct (nullish (own (data r) "user")) eqn:Hu,
             (truthy (own (data r) "access_token")) eqn:Ht.
    + destruct (DOMString ToString (own (data r) "access_token")) as [s|] eqn:Hs.
      * destruct (register_no_user_with_token _ _ _ _ _ _ _ Hb Hd Ht Hs Hu) as [msg ->].
        split; [settle|]. split; [|done]. by apply failure_result_tagged.
      * destruct (register_unstorable _ _ _ _ _ _ Hb Hd Ht Hs) as [msg ->].
        split; [settle|]. split; [|done]. by apply failure_result_tagged.
    + destruct (register_no_user_no_token _ _ _ _ _ _ Hb Hd Ht Hu) as [msg ->].
      split; [settle|]. split; [|done]. by apply failure_result_tagged.
    + destruct (DOMString ToString (own (data r) "access_token")) as [s|] eqn:Hs.
      * rewrite (register_with_token _ _ _ _ _ _ _ Hb Hu Ht Hs).
        split; [settle|]. split; [|done]. apply success_result_tagged.
      * destruct (register_unstorable _ _ _ _ _ _ Hb Hd Ht Hs) as [msg ->].
        split; [settle|]. split; [|done]. by apply failure_result_tagged.
    + rewrite (register_without_token _ _ _ _ _ _ Hb Hu Ht).
      split; [settle|]. split; [|done]. apply success_result_tagged.
  - rewrite (register_rejected _ _ _ _ _ _ Hb).
    split; [settle|]. split; [|done].
    by apply failure_result_tagged, failure_message_truthy.
Qed.

Lemma initializeAuth_total w :
  let o := initializeAuth env backend ToString w in
  consistent o /\ result o = Normal tt /\ loading (final o) = false.
Proof.
  cbn zeta.
  destruct (truthy (item w)) eqn:Hi.
  2: { rewrite (initializeAuth_no_item _ Hi). split; [settle|done]. }
  destruct (backend (me_request env w)) as [r|e] eqn:Hb.
  2: { rewrite (initializeAuth_rejected _ _ Hi Hb). split; [settle|done]. }
  destruct (nullish (data r)) eqn:Hd.
  { destruct (initializeAuth_no_body _ _ Hi Hb Hd) as [msg ->].
    split; [settle|done]. }
  pose proof (real_token_truthy
    (own (js_or (own (data r) "user") (data r)) "access_token") _ Hi) as Ht.
  destruct (DOMString ToString
    (js_or (own (js_or (own (data r) "user") (data r)) "access_token") (item w)))
    as [s|] eqn:Hs.
  - rewrite (initializeAuth_resolved _ _ _ Hi Hb Hd Hs). split; [settle|done].
  - destruct (initializeAuth_unstorable _ _ Hi Hb Hd Hs) as [msg ->].
    split; [settle|done].
Qed.

Lemma logout_total w :
  let o := logout env backend w in
  consistent o /\ result o = Normal tt /\ cleared (final o) /\
  loading (final o) = loading w /\
  navigations (emitted o) = ["/"] /\ last (emitted o) = Some (Navigate "/").
Proof.
  cbn zeta.
  destruct (backend (logout_request env w)) as [r|e] eqn:Hb.
  - rewrite (logout_resolved _ _ Hb). split; [settle|done].
  - rewrite (logout_rejected _ _ Hb). split; [settle|done].
Qed.

Lemma Normal_inj {A} (a b : A) : Normal a = Normal b -> a = b.
Proof. by intros [=]. Qed.

Lemma failure_is_not_success msg : failure_result msg <> success_result.
Proof.
  intros H.
  assert (own (failure_result msg) "success" = own success_result "success")
    as Hflag by (by rewrite H).
  vm_compute in Hflag. discriminate Hflag.
Qed.

(** A call that returned [{ success: true }] got a user record, and a
    token it could store when it got one. *)
Lemma login_success_inv email password w r :
  backend (login_request env w email password) = inl r ->
  result (login env backend ToString email password w) = Normal success_result ->
  nullish (own (data r) "user") = false /\
  (truthy (own (data r) "access_token") = true ->
   is_Some (DOMString ToString (own (data r) "access_token"))).
Proof.
  intros Hb.
  destruct (nullish (data r)) eqn:Hd.
  { destruct (login_no_body _ _ _ _ Hb Hd) as [msg ->]. cbn.
    by intros H%Normal_inj%failure_is_not_success. }
  destruct (truthy (own (data r) "access_token")) eqn:Ht.
  - destruct (DOMString ToString (own (data r) "access_token")) as [s|] eqn:Hs.
    + destruct (nullish (own (data r) "user")) eqn:Hu; [|by eauto].
      destruct (login_no_user_with_token _ _ _ _ _ Hb Hd Ht Hs Hu) as [msg ->].
      cbn. by intros H%Normal_inj%failure_is_not_success.
    + destruct (login_unstorable _ _ _ _ Hb Hd Ht Hs) as [msg ->].
      cbn. by intros H%Normal_inj%failure_is_not_success.
  - destruct (nullish (own (data r) "user")) eqn:Hu; [|done].
    destruct (login_no_user_no_token _ _ _ _ Hb Hd Ht Hu) as [msg ->].
    cbn. by intros H%Normal_inj%failure_is_not_success.
Qed.

End Paths.

(** ** Sample runs *)

(** A response without a user record: the token is stored, then the read
    of [userData.role] throws and the [catch] undoes everything. *)
Example login_without_user_record :
  login None (answers (obj [("access_token", JStr "t")])) no_conversion
    (JStr "a@b.com") (JStr "pw") signed_in =
  Outcome (Normal (failure_result (JStr "Login failed")))
    {| user := JNull; token := JNull; loading := false; stored := None |}
    [SetLoading true;
     Sent {| method := POST; url := "/api/auth/login/";
             body := obj [("email", JStr "a@b.com"); ("password", JStr "pw")];
             Authorization := Some "Bearer old" |};
     SetItem "t"; SetToken (JStr "t"); SetUser JUndefined;
     ConsoleError "Login error:"
       (LogValue (JStr "Cannot read properties of undefined (reading 'role')"));
     SetUser JNull; SetToken JNull; RemoveItem; SetLoading false].
Proof. reflexivity. Qed.

(** A current-user response that wraps the user and refreshes the token. *)
Example initializeAuth_refreshes_token :
  initializeAuth (Some "https://shop.example") 
    (answers (obj [("user", obj [("role", JStr "admin");
                                 ("access_token", JStr "new")])]))
    no_conversion (mount (Some "old")) =
  Outcome (Normal tt)
    {| user := obj [("role", JStr "admin"); ("access_token", JStr "new")];
       token := JStr "new"; loading := false; stored := Some "new" |}
    [SetLoading true;
     Sent {| method := GET; url := "https://shop.example/api/auth/me/";
             body := JUndefined; Authorization := Some "Bearer old" |};
     SetUser (obj [("role", JStr "admin"); ("access_token", JStr "new")]);
     SetItem "new"; SetToken (JStr "new"); SetLoading false].
Proof. reflexivity. Qed.

(** A current-user response whose body is [null]: reading [data.user]
    throws, and the session is cleared. *)
Example initializeAuth_null_body :
  final (initializeAuth None (answers JNull) no_conversion (mount (Some "old"))) =
  {| user := JNull; token := JNull; loading := false; stored := None |}.
Proof. reflexivity. Qed.

(** A registration without a role asks for the ['customer'] role. *)
Example register_default_role :
  body (register_request None (mount None) (JStr "a@b.com") (JStr "pw")
          (JStr "Ann") JUndefined) =
  obj [("email", JStr "a@b.com"); ("password", JStr "pw");
       ("name", JStr "Ann"); ("role", JStr "customer")].
Proof. reflexivity. Qed.

(** * The session manager's properties *)

Ltac occurs :=
  repeat first [apply list_elem_of_here | apply list_elem_of_further].

(** C1. Token and user stay consistent in all four operations: wherever the
    token is cleared (in the state or in [localStorage]) the user is
    cleared in the same block of statements, and once an error was caught
    the user, the token and the persisted token are all cleared. *)
Theorem token_user_consistency env backend ToString w :
  consistent (initializeAuth env backend ToString w) /\
  (forall email password,
      consistent (login env backend ToString email password w)) /\
  (forall email password name role,
      consistent (register env backend ToString email password name role w)) /\
  consistent (logout env backend w).
Proof.
  split; [apply initializeAuth_total|].
  split; [intros; apply login_total|].
  split; [intros; apply register_total|].
  apply logout_total.
Qed.

(** C2. [login] and [register] never throw: whatever the backend does, each
    returns an object with a [success] flag, and with a truthy [error]
    message when the flag is [false]. *)
Theorem login_register_never_throw env backend ToString w :
  (forall email password,
      tagged_result (result (login env backend ToString email password w))) /\
  (forall email password name role,
      tagged_result
        (result (register env backend ToString email password name role w))).
Proof.
  split; intros.
  - apply login_total.
  - apply register_total.
Qed.

(** C3. With no persisted token (no item, or an empty one) [initializeAuth]
    sets the user to [null] and [loading] to [false], sends no request and
    leaves the persisted item (and the token state) as they were. *)
Theorem initialize_without_persisted_token env backend ToString w :
  stored w = None \/ stored w = Some "" ->
  let o := initializeAuth env backend ToString w in
  result o = Normal tt /\
  user (final o) = JNull /\
  loading (final o) = false /\
  stored (final o) = stored w /\
  token (final o) = token w /\
  existsb is_sent (emitted o) = false /\
  existsb touches_item (emitted o) = false.
Proof.
  intros Hw o. subst o. rewrite initializeAuth_no_item; [done|].
  unfold item. by destruct Hw as [-> | ->].
Qed.

Lemma initialize_without_persisted_token_witness :
  stored (mount None) = None /\
  user (final (initializeAuth None (rejects network_error) no_conversion
                 (mount None))) = JNull.
Proof.
  split; [reflexivity|].
  apply (initialize_without_persisted_token None (rejects network_error)
           no_conversion (mount None)).
  left. reflexivity.
Defined.

(** C4, as the specification words it, fails: a current-user response that
    provides a refreshed token beside its [user] field, the shape of the
    login response, leaves the persisted token as it was. *)
Lemma refreshed_token_beside_user_counterexample :
  let body := obj [("user", obj [("role", JStr "customer")]);
                   ("access_token", JStr "new")] in
  let o := initializeAuth None (answers body) no_conversion (mount (Some "old")) in
  own body "access_token" = JStr "new" /\
  result o = Normal tt /\
  user (final o) = obj [("role", JStr "customer")] /\
  token (final o) = JStr "old" /\
  stored (final o) = Some "old" /\
  token (final o) <> JStr "new".
Proof. cbn zeta. repeat split. discriminate. Qed.

(** C4, amended. Take a non-empty persisted token and a current-user fetch
    that succeeds with a body that is neither [null] nor [undefined]. The
    fetched user is the body's [user] field when that field is truthy and
    the body itself otherwise; the refreshed token is the [access_token] of
    that fetched user. When the refreshed token is falsy, [initializeAuth]
    sets the user to the fetched user and keeps the persisted token; when
    it is truthy and [localStorage] can convert it to a string (a non-empty
    string is stored as it is), [initializeAuth] sets the user to the
    fetched user and replaces the token by it; in both cases the resulting
    token is written to [localStorage]. When the refreshed token is truthy
    and its conversion to a string throws, the error is caught and the
    user, the token and the persisted token are cleared. When the body has
    a truthy [user] field nothing else of the body is read: an
    [access_token] beside the [user] field does not change the outcome. *)
Theorem initialize_with_valid_token env backend ToString w st r :
  stored w = Some st -> st <> "" ->
  backend (me_request env w) = inl r ->
  nullish (data r) = false ->
  let userData := js_or (own (data r) "user") (data r) in
  let refreshed := own userData "access_token" in
  let o := initializeAuth env backend ToString w in
  (truthy refreshed = false ->
   result o = Normal tt /\ user (final o) = userData /\
   token (final o) = JStr st /\ stored (final o) = Some st /\
   SetItem st ∈ emitted o /\ loading (final o) = false) /\
  (forall t, refreshed = JStr t -> t <> "" ->
   result o = Normal tt /\ user (final o) = userData /\
   token (final o) = JStr t /\ stored (final o) = Some t /\
   SetItem t ∈ emitted o /\ loading (final o) = false) /\
  (forall s, truthy refreshed = true -> DOMString ToString refreshed = Some s ->
   result o = Normal tt /\ user (final o) = userData /\
   token (final o) = refreshed /\ stored (final o) = Some s /\
   SetItem s ∈ emitted o /\ loading (final o) = false) /\
  (truthy refreshed = true -> DOMString ToString refreshed = None ->
   result o = Normal tt /\ cleared (final o) /\
   existsb logs_error (emitted o) = true /\ loading (final o) = false) /\
  (truthy (own (data r) "user") = true ->
   userData = own (data r) "user" /\
   refreshed = own (own (data r) "user") "access_token" /\
   forall backend' r',
     backend' (me_request env w) = inl r' ->
     own (data r') "user" = own (data r) "user" ->
     let o' := initializeAuth env backend' ToString w in
     result o' = result o /\ final o' = final o) /\
  (truthy (own (data r) "user") = false ->
   userData = data r /\ refreshed = own (data r) "access_token").
Proof.
  intros Hw Hst Hb Hd. cbn zeta.
  assert (item w = JStr st) as Hitem by (unfold item; by rewrite Hw).
  assert (truthy (item w) = true) as Hi by (rewrite Hitem; by apply truthy_JStr).
  pose proof (fun s => initializeAuth_resolved env backend ToString w r s Hi Hb Hd)
    as Hrun.
  cbn zeta in Hrun. rewrite Hitem in Hrun.
  split; [|split; [|split; [|split; [|split]]]].
  - intros Ht. specialize (Hrun st). rewrite (js_or_falsy _ _ Ht) in Hrun.
    rewrite (Hrun eq_refl). cbn. repeat split; occurs.
  - intros t Ht Hne. specialize (Hrun t). rewrite Ht in Hrun.
    apply truthy_JStr in Hne. rewrite (js_or_truthy _ _ Hne) in Hrun.
    rewrite (Hrun eq_refl). cbn. repeat split; occurs.
  - intros s Ht Hs. specialize (Hrun s). rewrite (js_or_truthy _ _ Ht) in Hrun.
    rewrite (Hrun Hs). cbn. repeat split; occurs.
  - intros Ht Hs.
    pose proof (initializeAuth_unstorable env backend ToString w r Hi Hb Hd)
      as Hthrown.
    cbn zeta in Hthrown. rewrite (js_or_truthy _ _ Ht) in Hthrown.
    destruct (Hthrown Hs) as [msg ->]. by cbn.
  - intros Hu. rewrite (js_or_truthy _ _ Hu).
    split; [done|]. split; [done|].
    intros backend' r' Hb' Heq.
    assert (nullish (data r') = false) as Hd'.
    { apply (own_not_nullish _ "user"). rewrite Heq.
      by apply truthy_not_nullish. }
    pose proof (fun s =>
      initializeAuth_resolved env backend' ToString w r' s Hi Hb' Hd') as Hrun'.
    pose proof (initializeAuth_unstorable env backend' ToString w r' Hi Hb' Hd')
      as Hthrown'.
    pose proof (initializeAuth_unstorable env backend ToString w r Hi Hb Hd)
      as Hthrown.
    cbn zeta in Hrun', Hthrown', Hthrown.
    rewrite Heq in Hrun', Hthrown'.
    rewrite (js_or_truthy (own (data r) "user") (data r') Hu) in Hrun', Hthrown'.
    rewrite (js_or_truthy (own (data r) "user") (data r) Hu) in Hrun, Hthrown.
    rewrite Hitem in Hrun', Hthrown', Hthrown.
    destruct (DOMString ToString
                (js_or (own (own (data r) "user") "access_token") (JStr st)))
      as [s|] eqn:Hs.
    + by rewrite (Hrun s eq_refl), (Hrun' s eq_refl).
    + destruct (Hthrown eq_refl) as [msg ->].
      by destruct (Hthrown' eq_refl) as [msg' ->].
  - intros Hu. by rewrite (js_or_falsy _ _ Hu).
Qed.

Lemma initialize_with_valid_token_witness :
  let w := mount (Some "old") in
  let body := obj [("user", obj [("role", JStr "customer")])] in
  let o := initializeAuth None (answers body) no_conversion w in
  let bare := obj [("user", JNull); ("access_token", JStr "new")] in
  let o' := initializeAuth None (answers bare) no_conversion w in
  stored w = Some "old" /\
  (user (final o) = obj [("role", JStr "customer")] /\
   token (final o) = JStr "old" /\ stored (final o) = Some "old") /\
  (user (final o') = bare /\
   token (final o') = JStr "new" /\ stored (final o') = Some "new").
Proof.
  cbn zeta. split; [reflexivity|]. split.
  - pose proof (initialize_with_valid_token None
                  (answers (obj [("user", obj [("role", JStr "customer")])]))
                  no_conversion (mount (Some "old")) "old"
                  {| data := obj [("user", obj [("role", JStr "customer")])] |}
                  eq_refl ltac:(discriminate) eq_refl eq_refl) as [H _].
    destruct (H eq_refl) as (_ & Hu & Ht & Hs & _).
    split; [exact Hu|]. split; [exact Ht|exact Hs].
  - pose proof (initialize_with_valid_token None
                  (answers (obj [("user", JNull); ("access_token", JStr "new")]))
                  no_conversion (mount (Some "old")) "old"
                  {| data := obj [("user", JNull);
                                  ("access_token", JStr "new")] |}
                  eq_refl ltac:(discriminate) eq_refl eq_refl) as (_ & H & _).
    destruct (H "new" eq_refl ltac:(discriminate)) as (_ & Hu & Ht & Hs & _).
    split; [exact Hu|]. split; [exact Ht|exact Hs].
Defined.

(** C5. With a persisted token and a current-user fetch that fails, whatever
    the error, [initializeAuth] clears the user, the token and the persisted
    token, logs the error and returns normally; and in every case, failed
    fetch or not, it returns normally with [loading] set to [false], the
    session cleared whenever an error was caught. *)
Theorem initialize_with_failed_fetch env backend ToString w st e :
  stored w = Some st -> st <> "" ->
  backend (me_request env w) = inr e ->
  let o := initializeAuth env backend ToString w in
  result o = Normal tt /\
  cleared (final o) /\
  loading (final o) = false /\
  ConsoleError "Error fetching user during init:" (LogError e) ∈ emitted o /\
  (forall backend' ToString' w',
      let o' := initializeAuth env backend' ToString' w' in
      result o' = Normal tt /\
      loading (final o') = false /\
      (existsb logs_error (emitted o') = true -> cleared (final o'))).
Proof.
  intros Hw Hst Hb o.
  assert (truthy (item w) = true) as Hi
    by (unfold item; rewrite Hw; by apply truthy_JStr).
  subst o. rewrite (initializeAuth_rejected env backend ToString w e Hi Hb). cbn.
  split; [done|]. split; [done|]. split; [done|]. split; [occurs|].
  intros backend' ToString' w'.
  destruct (initializeAuth_total env backend' ToString' w')
    as ((_ & _ & Hcaught) & Hresult & Hloading).
  done.
Qed.

Lemma initialize_with_failed_fetch_witness :
  let w := mount (Some "old") in
  stored w = Some "old" /\
  cleared (final (initializeAuth None (rejects network_error) no_conversion w)).
Proof.
  cbn zeta. split; [reflexivity|].
  pose proof (initialize_with_failed_fetch None (rejects network_error)
                no_conversion (mount (Some "old")) "old" network_error eq_refl
                ltac:(discriminate) eq_refl) as (_ & Hcleared & _).
  exact Hcleared.
Defined.

(** C6. A login the backend answers with a user whose role is ['admin'] and
    with the access token [t] (as in [{user: {role: 'admin'},
    access_token: 't'}]) stores [t] in the state and in [localStorage],
    sets the user to the returned record, navigates to the admin dashboard
    and returns [{ success: true }]; a successful login whose user has any
    other role navigates to the customer dashboard instead. *)
Theorem login_success_navigates_by_role env backend ToString w email password r :
  backend (login_request env w email password) = inl r ->
  let o := login env backend ToString email password w in
  (forall t,
      own (own (data r) "user") "role" = JStr "admin" ->
      own (data r) "access_token" = JStr t -> t <> "" ->
      result o = Normal success_result /\
      token (final o) = JStr t /\ stored (final o) = Some t /\
      user (final o) = own (data r) "user" /\
      navigations (emitted o) = ["/dashboard/admin"] /\
      loading (final o) = false) /\
  (result o = Normal success_result ->
   strict_eq_str (own (own (data r) "user") "role") "admin" = false ->
   user (final o) = own (data r) "user" /\
   navigations (emitted o) = ["/dashboard/customer"]).
Proof.
  intros Hb o. split.
  - intros t Hrole Ha Hne.
    assert (nullish (own (data r) "user") = false) as Hu
      by (destruct (own (data r) "user"); done).
    assert (truthy (own (data r) "access_token") = true) as Ht
      by (rewrite Ha; by apply truthy_JStr).
    subst o.
    rewrite (login_with_token env backend ToString _ _ _ r t Hb Hu Ht)
      by (by rewrite Ha).
    cbn. unfold dashboard. rewrite Hrole, Ha. done.
  - intros Hok Hrole.
    destruct (login_success_inv env backend ToString _ _ _ _ Hb Hok) as [Hu Hs].
    subst o. destruct (truthy (own (data r) "access_token")) eqn:Ht.
    + destruct (Hs eq_refl) as [s Hs'].
      rewrite (login_with_token env backend ToString _ _ _ r s Hb Hu Ht Hs').
      cbn. unfold dashboard. by rewrite Hrole.
    + rewrite (login_without_token env backend ToString _ _ _ r Hb Hu Ht).
      cbn. unfold dashboard. by rewrite Hrole.
Qed.

Lemma login_success_navigates_by_role_witness :
  let admin := obj [("user", obj [("role", JStr "admin")]);
                    ("access_token", JStr "t")] in
  let customer := obj [("user", obj [("role", JStr "customer")]);
                       ("access_token", JStr "t")] in
  let o := login None (answers admin) no_conversion (JStr "a@b.com") (JStr "pw")
             (mount None) in
  let o' := login None (answers customer) no_conversion (JStr "a@b.com")
              (JStr "pw") (mount None) in
  (result o = Normal success_result /\
   token (final o) = JStr "t" /\ stored (final o) = Some "t" /\
   user (final o) = obj [("role", JStr "admin")] /\
   navigations (emitted o) = ["/dashboard/admin"] /\
   loading (final o) = false) /\
  (user (final o') = obj [("role", JStr "customer")] /\
   navigations (emitted o') = ["/dashboard/customer"]).
Proof.
  cbn zeta. split.
  - pose proof (login_success_navigates_by_role None
                  (answers (obj [("user", obj [("role", JStr "admin")]);
                                 ("access_token", JStr "t")]))
                  no_conversion (mount None) (JStr "a@b.com") (JStr "pw")
                  {| data := obj [("user", obj [("role", JStr "admin")]);
                                  ("access_token", JStr "t")] |} eq_refl)
      as [Hadmin _].
    apply (Hadmin "t"); [reflexivity|reflexivity|discriminate].
  - pose proof (login_success_navigates_by_role None
                  (answers (obj [("user", obj [("role", JStr "customer")]);
                                 ("access_token", JStr "t")]))
                  no_conversion (mount None) (JStr "a@b.com") (JStr "pw")
                  {| data := obj [("user", obj [("role", JStr "customer")]);
                                  ("access_token", JStr "t")] |} eq_refl)
      as [_ Hother].
    apply Hother; reflexivity.
Defined.

(** C7. A login the backend rejects with the payload [{error: 'bad creds'}]
    returns [{ success: false, error: 'bad creds' }] and clears the session:
    user and token set to [null], persisted token removed. *)
Theorem login_bad_creds env backend ToString w email password e r :
  backend (login_request env w email password) = inr e ->
  response e = Some r ->
  own (data r) "error" = JStr "bad creds" ->
  let o := login env backend ToString email password w in
  result o = Normal (obj [("success", JBool false); ("error", JStr "bad creds")]) /\
  cleared (final o) /\
  RemoveItem ∈ emitted o /\
  loading (final o) = false.
Proof.
  intros Hb Hr He o. subst o.
  rewrite (login_rejected env backend ToString _ _ _ e Hb). cbn.
  assert (failure_message e "Login failed" = JStr "bad creds") as ->.
  { unfold failure_message, response_data. rewrite Hr, !opt_own_own, He.
    reflexivity. }
  repeat split; try done; occurs.
Qed.

Lemma login_bad_creds_witness :
  let e := http_error (obj [("error", JStr "bad creds")]) in
  let o := login None (rejects e) no_conversion (JStr "a@b.com") (JStr "pw")
             signed_in in
  result o = Normal (obj [("success", JBool false); ("error", JStr "bad creds")]) /\
  cleared (final o) /\
  RemoveItem ∈ emitted o /\
  loading (final o) = false.
Proof.
  cbn zeta.
  apply (login_bad_creds None (rejects (http_error (obj [("error", JStr "bad creds")])))
           no_conversion signed_in (JStr "a@b.com") (JStr "pw")
           (http_error (obj [("error", JStr "bad creds")]))
           {| data := obj [("error", JStr "bad creds")] |});
    reflexivity.
Defined.

(** C8. [logout] always clears the session and navigates home: whether the
    backend call succeeds or fails, it returns normally with user and token
    set to [null] and the persisted token removed, and its one navigation,
    its last effect, goes to ['/']. *)
Theorem logout_always_clears env backend w :
  let o := logout env backend w in
  result o = Normal tt /\
  cleared (final o) /\
  RemoveItem ∈ emitted o /\
  navigations (emitted o) = ["/"] /\
  last (emitted o) = Some (Navigate "/").
Proof.
  cbn zeta. destruct (backend (logout_request env w)) as [r|e] eqn:Hb.
  - rewrite (logout_resolved env backend w r Hb). cbn.
    repeat split; try done; occurs.
  - rewrite (logout_rejected env backend w e Hb). cbn.
    repeat split; try done; occurs.
Qed.

(** C9. A login or a registration the backend answers with a user record but
    without an access token (the field is absent, [null], empty, or falsy in
    another way) leaves the token state and the persisted token as they
    were, replaces the user by the returned record, navigates, and returns
    [{ success: true }]. *)
Theorem success_without_access_token env backend ToString w :
  (forall email password r,
      backend (login_request env w email password) = inl r ->
      nullish (own (data r) "user") = false ->
      truthy (own (data r) "access_token") = false ->
      let o := login env backend ToString email password w in
      result o = Normal success_result /\
      user (final o) = own (data r) "user" /\
      token (final o) = token w /\
      stored (final o) = stored w /\
      existsb touches_item (emitted o) = false /\
      navigations (emitted o) = [dashboard (own (data r) "user")]) /\
  (forall email password name role r,
      backend (register_request env w email password name role) = inl r ->
      nullish (own (data r) "user") = false ->
      truthy (own (data r) "access_token") = false ->
      let o := register env backend ToString email password name role w in
      result o = Normal success_result /\
      user (final o) = own (data r) "user" /\
      token (final o) = token w /\
      stored (final o) = stored w /\
      existsb touches_item (emitted o) = false /\
      navigations (emitted o) = [dashboard (own (data r) "user")]) /\
  (forall fields : gmap string jsval,
      fields !! "access_token" = None \/
      fields !! "access_token" = Some JNull \/
      fields !! "access_token" = Some (JStr "") ->
      truthy (own (JObj fields) "access_token") = false).
Proof.
  split; [|split].
  - intros email password r Hb Hu Ht o. subst o.
    by rewrite (login_without_token env backend ToString _ _ _ r Hb Hu Ht).
  - intros email password name role r Hb Hu Ht o. subst o.
    by rewrite (register_without_token env backend ToString _ _ _ _ _ r Hb Hu Ht).
  - intros fields [H | [H | H]]; unfold own; by rewrite H.
Qed.

Lemma success_without_access_token_witness :
  let body := obj [("user", obj [("role", JStr "admin")]);
                   ("access_token", JNull)] in
  let o := login None (answers body) no_conversion (JStr "a@b.com") (JStr "pw")
             signed_in in
  let o' := register None (answers body) no_conversion (JStr "a@b.com")
              (JStr "pw") (JStr "Ann") JUndefined signed_in in
  (result o = Normal success_result /\
   user (final o) = obj [("role", JStr "admin")] /\
   token (final o) = JStr "old" /\
   stored (final o) = Some "old" /\
   existsb touches_item (emitted o) = false /\
   navigations (emitted o) = ["/dashboard/admin"]) /\
  (result o' = Normal success_result /\
   user (final o') = obj [("role", JStr "admin")] /\
   token (final o') = JStr "old" /\
   stored (final o') = Some "old" /\
   existsb touches_item (emitted o') = false /\
   navigations (emitted o') = ["/dashboard/admin"]).
Proof.
  cbn zeta.
  pose proof (success_without_access_token None
                (answers (obj [("user", obj [("role", JStr "admin")]);
                               ("access_token", JNull)]))
                no_conversion signed_in) as (Hlogin & Hregister & _).
  split.
  - apply (Hlogin (JStr "a@b.com") (JStr "pw")
             {| data := obj [("user", obj [("role", JStr "admin")]);
                             ("access_token", JNull)] |});
      reflexivity.
  - apply (Hregister (JStr "a@b.com") (JStr "pw") (JStr "Ann") JUndefined
             {| data := obj [("user", obj [("role", JStr "admin")]);
                             ("access_token", JNull)] |});
      reflexivity.
Defined.

(** C10, as the specification words it, fails: with both fields in the
    payload, a falsy ['error'] field does not take precedence; the
    ['message'] field is returned. *)
Lemma error_field_precedence_counterexample :
  let payload := obj [("error", JBool false); ("message", JStr "m")] in
  let o := login None (rejects (http_error payload)) no_conversion
             (JStr "a@b.com") (JStr "pw") signed_in in
  own payload "error" = JBool false /\
  own payload "message" = JStr "m" /\
  result o = Normal (failure_result (JStr "m")) /\
  result o <> Normal (failure_result (JBool false)).
Proof.
  cbn zeta. repeat split. intros H.
  assert (Normal (failure_result (JStr "m")) =
          Normal (failure_result (JBool false))) as Heq by exact H.
  apply Normal_inj, (f_equal (fun v => own v "error")) in Heq.
  vm_compute in Heq. discriminate Heq.
Qed.

(** C10, amended. The message of a failed login or registration is the
    first truthy value among the ['error'] field of the error payload, its
    ['message'] field, and the fixed string (['Login failed'], or
    ['Registration failed']): the fixed string when the error has no
    payload or the payload has neither field (or only falsy ones), the
    ['error'] field whenever it is truthy, whatever ['message'] holds. *)
Theorem failure_message_selection env backend ToString w e :
  (forall email password,
      backend (login_request env w email password) = inr e ->
      result (login env backend ToString email password w) =
      Normal (failure_result (failure_message e "Login failed"))) /\
  (forall email password name role,
      backend (register_request env w email password name role) = inr e ->
      result (register env backend ToString email password name role w) =
      Normal (failure_result (failure_message e "Registration failed"))) /\
  (forall fallback,
      let error := own (response_data e) "error" in
      let msg := own (response_data e) "message" in
      (truthy error = true -> failure_message e fallback = error) /\
      (truthy error = false -> truthy msg = true ->
       failure_message e fallback = msg) /\
      (truthy error = false -> truthy msg = false ->
       failure_message e fallback = JStr fallback) /\
      (response e = None -> failure_message e fallback = JStr fallback) /\
      (forall fields : gmap string jsval,
          response_data e = JObj fields ->
          fields !! "error" = None -> fields !! "message" = None ->
          failure_message e fallback = JStr fallback)).
Proof.
  split; [|split].
  - intros email password Hb.
    by rewrite (login_rejected env backend ToString _ _ _ e Hb).
  - intros email password name role Hb.
    by rewrite (register_rejected env backend ToString _ _ _ _ _ e Hb).
  - intros fallback error msg. subst error msg.
    unfold failure_message. rewrite !opt_own_own.
    split; [|split; [|split; [|split]]].
    + intros He. by rewrite (js_or_truthy _ _ He), (js_or_truthy _ _ He).
    + intros He Hm. by rewrite (js_or_falsy _ _ He), (js_or_truthy _ _ Hm).
    + intros He Hm. by rewrite (js_or_falsy _ _ He), (js_or_falsy _ _ Hm).
    + unfold response_data. by intros ->.
    + intros fields -> He Hm. unfold own. by rewrite He, Hm.
Qed.

Lemma failure_message_selection_witness :
  let both := http_error (obj [("error", JStr "bad creds"); ("message", JStr "m")]) in
  let o := login None (rejects both) no_conversion (JStr "a@b.com") (JStr "pw")
             signed_in in
  let o' := register None (rejects network_error) no_conversion (JStr "a@b.com")
              (JStr "pw") (JStr "Ann") JUndefined signed_in in
  result o = Normal (failure_result (JStr "bad creds")) /\
  result o' = Normal (failure_result (JStr "Registration failed")).
Proof.
  cbn zeta. split.
  - pose proof (failure_message_selection None
                  (rejects (http_error (obj [("error", JStr "bad creds");
                                             ("message", JStr "m")])))
                  no_conversion signed_in
                  (http_error (obj [("error", JStr "bad creds");
                                    ("message", JStr "m")])))
      as (Hlogin & _ & Hchoice).
    rewrite (Hlogin (JStr "a@b.com") (JStr "pw") eq_refl).
    destruct (Hchoice "Login failed") as (Herror & _).
    by rewrite (Herror eq_refl).
  - pose proof (failure_message_selection None (rejects network_error)
                  no_conversion signed_in network_error)
      as (_ & Hregister & Hchoice).
    rewrite (Hregister (JStr "a@b.com") (JStr "pw") (JStr "Ann") JUndefined eq_refl).
    destruct (Hchoice "Registration failed") as (_ & _ & _ & Hnone & _).
    by rewrite (Hnone eq_refl).
Defined.

(** * Beyond the session's stated properties *)

(** ** How each operation can end *)

Section Outcomes.

Variable env : option string.
Variable backend : request -> AxiosResponse + JsError.
Variable ToString : jsval -> option string.

Lemma interceptor_bearer w m u b :
  interceptor w m u b =
  {| method := m; url := u; body := b; Authorization := bearer w |}.
Proof.
  unfold interceptor, bearer. destruct (stored w) as [st|]; [|done].
  unfold truthy. by destruct (String.eqb st "").
Qed.

Lemma falsy_item w :
  truthy (item w) = false <-> stored w = None \/ stored w = Some "".
Proof.
  unfold item. destruct (stored w) as [st|]; [|by split; auto].
  split.
  - intros H. right. f_equal. destruct (String.eqb_spec st ""); [done|].
    by apply truthy_JStr in n; rewrite n in H.
  - intros [H | [= ->]]; done.
Qed.

Lemma bearer_item w : bearer w = None <-> truthy (item w) = false.
Proof.
  unfold bearer, item, truthy. destruct (stored w) as [st|]; [|done].
  by destruct (String.eqb st "").
Qed.

Lemma truthy_item w st : stored w = Some st -> st <> "" -> truthy (item w) = true.
Proof. intros Hw Hst. unfold item. rewrite Hw. by apply truthy_JStr. Qed.

Lemma truthy_not_null v : truthy v = true -> v <> JNull.
Proof. by intros Hv ->. Qed.

(** The facts every path through [login] shares, and the three ways it
    can end. *)
Lemma login_outcomes email password w :
  let o := login env backend ToString email password w in
  sign_in_outcome ToString w o /\
  requests (emitted o) = [login_request env w email password] /\
  head (emitted o) = Some (SetLoading true) /\
  last (emitted o) = Some (SetLoading false).
Proof.
  cbn zeta.
  destruct (backend (login_request env w email password)) as [r|e] eqn:Hb.
  - destruct (nullish (data r)) eqn:Hd.
    { destruct (login_no_body env backend ToString _ _ _ _ Hb Hd) as [msg ->].
      split; [|done]. by apply (sign_in_failed _ _ _ (JStr "Login failed")). }
    destruct (nullish (own (data r) "user")) eqn:Hu,
             (truthy (own (data r) "access_token")) eqn:Ht.
    + destruct (DOMString ToString (own (data r) "access_token")) as [s|] eqn:Hs.
      * destruct (login_no_user_with_token env backend ToString _ _ _ _ _
                    Hb Hd Ht Hs Hu) as [msg ->].
        split; [|done]. by apply (sign_in_failed _ _ _ (JStr "Login failed")).
      * destruct (login_unstorable env backend ToString _ _ _ _ Hb Hd Ht Hs)
          as [msg ->].
        split; [|done]. by apply (sign_in_failed _ _ _ (JStr "Login failed")).
    + destruct (login_no_user_no_token env backend ToString _ _ _ _ Hb Hd Ht Hu)
        as [msg ->].
      split; [|done]. by apply (sign_in_failed _ _ _ (JStr "Login failed")).
    + destruct (DOMString ToString (own (data r) "access_token")) as [s|] eqn:Hs.
      * rewrite (login_with_token env backend ToString _ _ _ _ _ Hb Hu Ht Hs).
        split; [|done]. by eapply sign_in_with_token.
      * destruct (login_unstorable env backend ToString _ _ _ _ Hb Hd Ht Hs)
          as [msg ->].
        split; [|done]. by apply (sign_in_failed _ _ _ (JStr "Login failed")).
    + rewrite (login_without_token env backend ToString _ _ _ _ Hb Hu Ht).
      split; [|done]. by eapply sign_in_without_token.
  - rewrite (login_rejected env backend ToString _ _ _ _ Hb).
    split; [|done].
    eapply sign_in_failed; try done. by apply failure_message_truthy.
Qed.

(** The same for [register]. *)
Lemma register_outcomes email password name role w :
  let o := register env backend ToString email password name role w in
  sign_in_outcome ToString w o /\
  requests (emitted o) = [register_request env w email password name role] /\
  head (emitted o) = Some (SetLoading true) /\
  last (emitted o) = Some (SetLoading false).
Proof.
  cbn zeta.
  destruct (backend (register_request env w email password name role)) as [r|e] eqn:Hb.
  - destruct (nullish (data r)) eqn:Hd.
    { destruct (register_no_body env backend ToString _ _ _ _ _ _ Hb Hd) as [msg ->].
      split; [|done]. by apply (sign_in_failed _ _ _ (JStr "Registration failed")). }
    destruct (nullish (own (data r) "user")) eqn:Hu,
             (truthy (own (data r) "access_token")) eqn:Ht.
    + destruct (DOMString ToString (own (data r) "access_token")) as [s|] eqn:Hs.
      * destruct (register_no_user_with_token env backend ToString _ _ _ _ _ _ _
                    Hb Hd Ht Hs Hu) as [msg ->].
        split; [|done]. by apply (sign_in_failed _ _ _ (JStr "Registration failed")).
      * destruct (register_unstorable env backend ToString _ _ _ _ _ _ Hb Hd Ht Hs)
          as [msg ->].
        split; [|done]. by apply (sign_in_failed _ _ _ (JStr "Registration failed")).
    + destruct (register_no_user_no_token env backend ToString _ _ _ _ _ _ Hb Hd Ht Hu)
        as [msg ->].
      split; [|done]. by apply (sign_in_failed _ _ _ (JStr "Registration failed")).
    + destruct (DOMString ToString (own (data r) "access_token")) as [s|] eqn:Hs.
      * rewrite (register_with_token env backend ToString _ _ _ _ _ _ _ Hb Hu Ht Hs).
        split; [|done]. by eapply sign_in_with_token.
      * destruct (register_unstorable env backend ToString _ _ _ _ _ _ Hb Hd Ht Hs)
          as [msg ->].
        split; [|done]. by apply (sign_in_failed _ _ _ (JStr "Registration failed")).
    + rewrite (register_without_token env backend ToString _ _ _ _ _ _ Hb Hu Ht).
      split; [|done]. by eapply sign_in_without_token.
  - rewrite (register_rejected env backend ToString _ _ _ _ _ _ Hb).
    split; [|done].
    eapply sign_in_failed; try done. by apply failure_message_truthy.
Qed.

Lemma initializeAuth_outcomes w :
  let o := initializeAuth env backend ToString w in
  restore_outcome ToString w o /\
  result o = Normal tt /\
  requests (emitted o) = (if truthy (item w) then [me_request env w] else []) /\
  navigations (emitted o) = [] /\
  head (emitted o) = Some (SetLoading true) /\
  last (emitted o) = Some (SetLoading false).
Proof.
  cbn zeta. destruct (truthy (item w)) eqn:Hi.
  2: { rewrite (initializeAuth_no_item env backend ToString _ Hi).
       split; [|done]. by apply restore_skipped. }
  destruct (backend (me_request env w)) as [r|e] eqn:Hb.
  2: { rewrite (initializeAuth_rejected env backend ToString _ _ Hi Hb).
       split; [|done]. by apply restore_failed. }
  destruct (nullish (data r)) eqn:Hd.
  { destruct (initializeAuth_no_body env backend ToString _ _ Hi Hb Hd)
      as [msg ->].
    split; [|done]. by apply restore_failed. }
  pose proof (fetched_user_not_nullish _ Hd) as Hu.
  pose proof (real_token_truthy
    (own (js_or (own (data r) "user") (data r)) "access_token") _ Hi) as Ht.
  destruct (DOMString ToString
    (js_or (own (js_or (own (data r) "user") (data r)) "access_token") (item w)))
    as [s|] eqn:Hs.
  - rewrite (initializeAuth_resolved env backend ToString _ _ _ Hi Hb Hd Hs).
    split; [|done]. by eapply restore_done.
  - destruct (initializeAuth_unstorable env backend ToString _ _ Hi Hb Hd Hs)
      as [msg ->].
    split; [|done]. by apply restore_failed.
Qed.

Lemma logout_outcomes w :
  let o := logout env backend w in
  result o = Normal tt /\
  final o = {| user := JNull; token := JNull; loading := loading w;
               stored := None |} /\
  requests (emitted o) = [logout_request env w] /\
  navigations (emitted o) = ["/"] /\
  existsb sets_loading (emitted o) = false.
Proof.
  cbn zeta. destruct (backend (logout_request env w)) as [r|e] eqn:Hb.
  - by rewrite (logout_resolved env backend _ _ Hb).
  - by rewrite (logout_rejected env backend _ _ Hb).
Qed.

(** Every operation keeps the token in the state and the persisted one
    together. *)
Lemma after_token_persisted op w :
  token_persisted ToString w ->
  token_persisted ToString (after env backend ToString op w).
Proof.
  intros Hw. destruct op as [|email password|email password name role|];
    cbn [after].
  - destruct (initializeAuth_outcomes w) as [Ho _].
    destruct Ho as [_ -> _ _| _ -> _ _|u t s _ _ Ht Hs -> _ _].
    + exact Hw.
    + by left.
    + right. split; [by apply truthy_not_null|]. by exists s.
  - destruct (login_outcomes email password w) as [Ho _].
    destruct Ho as [msg _ _ -> _ _|u t s _ Ht Hs _ -> _ _|u _ _ -> _ _].
    + by left.
    + right. split; [by apply truthy_not_null|]. by exists s.
    + exact Hw.
  - destruct (register_outcomes email password name role w) as [Ho _].
    destruct Ho as [msg _ _ -> _ _|u t s _ Ht Hs _ -> _ _|u _ _ -> _ _].
    + by left.
    + right. split; [by apply truthy_not_null|]. by exists s.
    + exact Hw.
  - destruct (logout_outcomes w) as (_ & -> & _). by left.
Qed.

(** A session without a user has no usable persisted token. *)
Lemma after_without_user op w :
  nullish (user (after env backend ToString op w)) = true ->
  truthy (item (after env backend ToString op w)) = false.
Proof.
  destruct op as [|email password|email password name role|]; cbn [after].
  - destruct (initializeAuth_outcomes w) as [Ho _].
    destruct Ho as [Hi Hf _ _| _ -> _ _|u t s _ Hu _ _ -> _ _].
    + intros _. rewrite Hf. exact Hi.
    + done.
    + cbn. congruence.
  - destruct (login_outcomes email password w) as [Ho _].
    destruct Ho as [msg _ _ -> _ _|u t s Hu _ _ _ -> _ _|u Hu _ -> _ _];
      [done|cbn; congruence|cbn; congruence].
  - destruct (register_outcomes email password name role w) as [Ho _].
    destruct Ho as [msg _ _ -> _ _|u t s Hu _ _ _ -> _ _|u Hu _ -> _ _];
      [done|cbn; congruence|cbn; congruence].
  - by destruct (logout_outcomes w) as (_ & -> & _).
Qed.

End Outcomes.

(** ** The requests *)

(** X1. [initializeAuth] contacts the backend exactly when a non-empty token
    is persisted: then it sends one request, [GET {API}/auth/me/] without a
    body, with that token as bearer credential; otherwise it sends none. *)
Theorem initializeAuth_requests env backend ToString w :
  requests (emitted (initializeAuth env backend ToString w)) =
  match bearer w with
  | Some credential =>
      [{| method := GET; url := API env +:+ "/auth/me/"; body := JUndefined;
          Authorization := Some credential |}]
  | None => []
  end.
Proof.
  destruct (initializeAuth_outcomes env backend ToString w) as (_ & _ & -> & _).
  unfold me_request. rewrite interceptor_bearer.
  destruct (bearer w) as [credential|] eqn:Hbearer.
  - destruct (truthy (item w)) eqn:Hi; [done|].
    apply bearer_item in Hi. congruence.
  - apply bearer_item in Hbearer. by rewrite Hbearer.
Qed.

(** X2. [login] and [logout] each send exactly one request, whatever the
    backend answers: [POST {API}/auth/login/] with the body
    [{email, password}], and [POST {API}/auth/logout/] without a body. Each
    carries the token persisted when the operation starts as bearer
    credential (so a login request carries the previous session's token,
    and the logout request the token being discarded), and no Authorization
    header when none is persisted. *)
Theorem login_and_logout_requests env backend ToString w :
  (forall email password,
      requests (emitted (login env backend ToString email password w)) =
      [{| method := POST; url := API env +:+ "/auth/login/";
          body := obj [("email", email); ("password", password)];
          Authorization := bearer w |}]) /\
  requests (emitted (logout env backend w)) =
  [{| method := POST; url := API env +:+ "/auth/logout/"; body := JUndefined;
      Authorization := bearer w |}].
Proof.
  split.
  - intros email password.
    destruct (login_outcomes env backend ToString email password w)
      as (_ & -> & _).
    unfold login_request. by rewrite interceptor_bearer.
  - destruct (logout_outcomes env backend w) as (_ & _ & -> & _).
    unfold logout_request. by rewrite interceptor_bearer.
Qed.

(** X3. [register] sends exactly one request, [POST {API}/auth/register/],
    whose body carries the email, password and name it was called with; the
    role in the body is ['customer'] when the caller passes [undefined] (or
    omits the argument), and the caller's value in every other case,
    [null] included. *)
Theorem register_request_body env backend ToString w email password name role :
  exists r,
    requests (emitted (register env backend ToString email password name role w))
    = [r] /\
    method r = POST /\
    url r = API env +:+ "/auth/register/" /\
    Authorization r = bearer w /\
    own (body r) "email" = email /\
    own (body r) "password" = password /\
    own (body r) "name" = name /\
    (role = JUndefined -> own (body r) "role" = JStr "customer") /\
    (role <> JUndefined -> own (body r) "role" = role).
Proof.
  exists (register_request env w email password name role).
  destruct (register_outcomes env backend ToString email password name role w)
    as (_ & -> & _).
  unfold register_request. rewrite interceptor_bearer.
  cbn [method url body Authorization].
  repeat split; try reflexivity.
  - by intros ->.
  - intros Hrole. by destruct role.
Qed.

(** ** Signing in *)

(** X4. A registration the backend answers with a user record and a
    non-empty access token [t] stores [t] in the state and in
    [localStorage], sets the user to the returned record and returns
    [{ success: true }]; it navigates to the admin dashboard exactly when
    the role of the returned record is ['admin'], whatever role the caller
    asked for. *)
Theorem register_success_navigates_by_returned_role
    env backend ToString w email password name role r t :
  backend (register_request env w email password name role) = inl r ->
  nullish (own (data r) "user") = false ->
  own (data r) "access_token" = JStr t -> t <> "" ->
  let o := register env backend ToString email password name role w in
  result o = Normal success_result /\
  user (final o) = own (data r) "user" /\
  token (final o) = JStr t /\
  stored (final o) = Some t /\
  loading (final o) = false /\
  navigations (emitted o) =
  [if strict_eq_str (own (own (data r) "user") "role") "admin"
   then "/dashboard/admin" else "/dashboard/customer"].
Proof.
  intros Hb Hu Ha Hne o. subst o.
  assert (truthy (own (data r) "access_token") = true) as Ht
    by (rewrite Ha; by apply truthy_JStr).
  rewrite (register_with_token env backend ToString _ _ _ _ _ r t Hb Hu Ht)
    by (by rewrite Ha).
  cbn. by rewrite Ha.
Qed.

Lemma register_success_navigates_by_returned_role_witness :
  let body := obj [("user", obj [("role", JStr "customer")]);
                   ("access_token", JStr "t")] in
  let o := register None (answers body) no_conversion (JStr "a@b.com")
             (JStr "pw") (JStr "Ann") (JStr "admin") (mount None) in
  result o = Normal success_result /\
  user (final o) = obj [("role", JStr "customer")] /\
  token (final o) = JStr "t" /\
  stored (final o) = Some "t" /\
  loading (final o) = false /\
  navigations (emitted o) = ["/dashboard/customer"].
Proof.
  cbn zeta.
  apply (register_success_navigates_by_returned_role None
           (answers (obj [("user", obj [("role", JStr "customer")]);
                          ("access_token", JStr "t")]))
           no_conversion (mount None) (JStr "a@b.com") (JStr "pw") (JStr "Ann")
           (JStr "admin")
           {| data := obj [("user", obj [("role", JStr "customer")]);
                           ("access_token", JStr "t")] |} "t");
    [reflexivity|reflexivity|reflexivity|discriminate].
Defined.

(** X5. The flag [login] and [register] return tells the truth about the
    session they leave: with [{ success: true }] there is a user (neither
    [null] nor [undefined]), no error was logged, and one navigation was
    made, to the dashboard of that user's role; with [{ success: false }]
    the session is logged out (no user, no token, nothing persisted), the
    error was logged and no navigation was made. In both cases [loading]
    is [false]. There is no third outcome. *)
Theorem sign_in_flag_matches_session env backend ToString w :
  let settled (o : outcome jsval) :=
    loading (final o) = false /\
    ((result o = Normal success_result /\
      nullish (user (final o)) = false /\
      navigations (emitted o) = [dashboard (user (final o))] /\
      existsb logs_error (emitted o) = false) \/
     (exists msg,
         result o = Normal (failure_result msg) /\
         final o = logged_out /\
         navigations (emitted o) = [] /\
         existsb logs_error (emitted o) = true)) in
  (forall email password,
      settled (login env backend ToString email password w)) /\
  (forall email password name role,
      settled (register env backend ToString email password name role w)).
Proof.
  cbn zeta. split.
  - intros email password.
    destruct (login_outcomes env backend ToString email password w) as [Ho _].
    destruct Ho as [msg _ Hr Hf Hn Hl|u t s Hu _ _ Hr Hf Hn Hl|u Hu Hr Hf Hn Hl];
      rewrite Hf; cbn; (split; [done|]).
    + right. exists msg. by rewrite <- Hf.
    + by left.
    + by left.
  - intros email password name role.
    destruct (register_outcomes env backend ToString email password name role w)
      as [Ho _].
    destruct Ho as [msg _ Hr Hf Hn Hl|u t s Hu _ _ Hr Hf Hn Hl|u Hu Hr Hf Hn Hl];
      rewrite Hf; cbn; (split; [done|]).
    + right. exists msg. by rewrite <- Hf.
    + by left.
    + by left.
Qed.

(** X6. A login or a registration the backend answers successfully but
    without a user record (no [user] field, a [null] one, or no body at
    all) is turned into a failure: the call returns [{ success: false }]
    with the fixed message, makes no navigation, and leaves the session
    logged out, also when the response carried an access token, which is
    removed again. *)
Theorem sign_in_without_user_record env backend ToString w :
  (forall email password r,
      backend (login_request env w email password) = inl r ->
      nullish (own (data r) "user") = true ->
      let o := login env backend ToString email password w in
      result o = Normal (failure_result (JStr "Login failed")) /\
      final o = logged_out /\
      navigations (emitted o) = []) /\
  (forall email password name role r,
      backend (register_request env w email password name role) = inl r ->
      nullish (own (data r) "user") = true ->
      let o := register env backend ToString email password name role w in
      result o = Normal (failure_result (JStr "Registration failed")) /\
      final o = logged_out /\
      navigations (emitted o) = []).
Proof.
  split.
  - intros email password r Hb Hu o. subst o.
    destruct (nullish (data r)) eqn:Hd.
    { by destruct (login_no_body env backend ToString _ _ _ _ Hb Hd) as [msg ->]. }
    destruct (truthy (own (data r) "access_token")) eqn:Ht.
    + destruct (DOMString ToString (own (data r) "access_token")) as [s|] eqn:Hs.
      * by destruct (login_no_user_with_token env backend ToString _ _ _ _ _
                       Hb Hd Ht Hs Hu) as [msg ->].
      * by destruct (login_unstorable env backend ToString _ _ _ _ Hb Hd Ht Hs)
          as [msg ->].
    + by destruct (login_no_user_no_token env backend ToString _ _ _ _
                     Hb Hd Ht Hu) as [msg ->].
  - intros email password name role r Hb Hu o. subst o.
    destruct (nullish (data r)) eqn:Hd.
    { by destruct (register_no_body env backend ToString _ _ _ _ _ _ Hb Hd)
        as [msg ->]. }
    destruct (truthy (own (data r) "access_token")) eqn:Ht.
    + destruct (DOMString ToString (own (data r) "access_token")) as [s|] eqn:Hs.
      * by destruct (register_no_user_with_token env backend ToString _ _ _ _ _ _ _
                       Hb Hd Ht Hs Hu) as [msg ->].
      * by destruct (register_unstorable env backend ToString _ _ _ _ _ _
                       Hb Hd Ht Hs) as [msg ->].
    + by destruct (register_no_user_no_token env backend ToString _ _ _ _ _ _
                     Hb Hd Ht Hu) as [msg ->].
Qed.

Lemma sign_in_without_user_record_witness :
  let body := obj [("access_token", JStr "t")] in
  let o := login None (answers body) no_conversion (JStr "a@b.com") (JStr "pw")
             signed_in in
  let o' := register None (answers JNull) no_conversion (JStr "a@b.com")
              (JStr "pw") (JStr "Ann") JUndefined signed_in in
  (result o = Normal (failure_result (JStr "Login failed")) /\
   final o = logged_out /\ navigations (emitted o) = []) /\
  (result o' = Normal (failure_result (JStr "Registration failed")) /\
   final o' = logged_out /\ navigations (emitted o') = []).
Proof.
  cbn zeta. split.
  - pose proof (sign_in_without_user_record None
                  (answers (obj [("access_token", JStr "t")]))
                  no_conversion signed_in) as [Hlogin _].
    apply (Hlogin (JStr "a@b.com") (JStr "pw")
             {| data := obj [("access_token", JStr "t")] |}); reflexivity.
  - pose proof (sign_in_without_user_record None (answers JNull)
                  no_conversion signed_in) as [_ Hregister].
    apply (Hregister (JStr "a@b.com") (JStr "pw") (JStr "Ann") JUndefined
             {| data := JNull |}); reflexivity.
Defined.

(** ** Restoring the session *)

(** X7. A current-user fetch that succeeds with an empty body ([null] or
    [undefined]) is treated like a failed one: [initializeAuth] logs a
    [TypeError], clears the user, the token and the persisted token, and
    returns normally with [loading] set to [false]. *)
Theorem initializeAuth_empty_body env backend ToString w st r :
  stored w = Some st -> st <> "" ->
  backend (me_request env w) = inl r ->
  nullish (data r) = true ->
  let o := initializeAuth env backend ToString w in
  result o = Normal tt /\
  final o = logged_out /\
  (exists msg,
      ConsoleError "Error fetching user during init:" (LogError (TypeError msg))
      ∈ emitted o).
Proof.
  intros Hw Hst Hb Hd o. subst o.
  destruct (initializeAuth_no_body env backend ToString w r
              (truthy_item w st Hw Hst) Hb Hd) as [msg ->].
  split; [done|]. split; [done|]. exists msg. cbn. occurs.
Qed.

Lemma initializeAuth_empty_body_witness :
  final (initializeAuth None (answers JNull) no_conversion (mount (Some "old")))
  = logged_out.
Proof.
  apply (initializeAuth_empty_body None (answers JNull) no_conversion
           (mount (Some "old")) "old" {| data := JNull |});
    [reflexivity|discriminate|reflexivity|reflexivity].
Defined.

(** X8. Started with a non-empty persisted token, [initializeAuth] ends in
    one of two ways and never navigates: either an error was caught and
    logged and the session is logged out, or no error was logged and the
    session has a user (neither [null] nor [undefined]), a truthy token,
    and that token's string persisted. *)
Theorem initializeAuth_restores_or_logs_out env backend ToString w st :
  stored w = Some st -> st <> "" ->
  let o := initializeAuth env backend ToString w in
  navigations (emitted o) = [] /\
  loading (final o) = false /\
  ((existsb logs_error (emitted o) = true /\ final o = logged_out) \/
   (existsb logs_error (emitted o) = false /\
    nullish (user (final o)) = false /\
    truthy (token (final o)) = true /\
    exists s, DOMString ToString (token (final o)) = Some s /\
              stored (final o) = Some s)).
Proof.
  intros Hw Hst o. subst o.
  pose proof (truthy_item w st Hw Hst) as Hi.
  destruct (initializeAuth_outcomes env backend ToString w)
    as (Ho & _ & _ & Hn & _).
  split; [done|].
  destruct Ho as [Hi' _ _ _|_ Hf _ Hl|u t s _ Hu Ht Hs Hf _ Hl].
  - congruence.
  - rewrite Hf. split; [done|]. by left.
  - rewrite Hf. cbn. split; [done|]. right. repeat split; try done.
    by exists s.
Qed.

Lemma initializeAuth_restores_or_logs_out_witness :
  navigations
    (emitted (initializeAuth None (rejects network_error) no_conversion
                (mount (Some "old")))) = [].
Proof.
  apply (initializeAuth_restores_or_logs_out None (rejects network_error)
           no_conversion (mount (Some "old")) "old");
    [reflexivity|discriminate].
Defined.

(** ** The loading flag *)

(** X9. [initializeAuth], [login] and [register] bracket their work with the
    loading flag: setting it to [true] is their first effect, setting it to
    [false] their last one, on every path; [logout] never sets the flag and
    leaves it as it found it. *)
Theorem loading_brackets_the_work env backend ToString w :
  let bracketed {A} (o : outcome A) :=
    head (emitted o) = Some (SetLoading true) /\
    last (emitted o) = Some (SetLoading false) /\
    loading (final o) = false in
  bracketed (initializeAuth env backend ToString w) /\
  (forall email password,
      bracketed (login env backend ToString email password w)) /\
  (forall email password name role,
      bracketed (register env backend ToString email password name role w)) /\
  existsb sets_loading (emitted (logout env backend w)) = false /\
  loading (final (logout env backend w)) = loading w.
Proof.
  cbn zeta. split; [|split; [|split; [|split]]].
  - destruct (initializeAuth_outcomes env backend ToString w)
      as (_ & _ & _ & _ & Hh & Hl).
    repeat split; try done. apply initializeAuth_total.
  - intros email password.
    destruct (login_outcomes env backend ToString email password w)
      as (_ & _ & Hh & Hl).
    repeat split; try done. apply login_total.
  - intros email password name role.
    destruct (register_outcomes env backend ToString email password name role w)
      as (_ & _ & Hh & Hl).
    repeat split; try done. apply register_total.
  - apply logout_outcomes.
  - by destruct (logout_outcomes env backend w) as (_ & -> & _).
Qed.

(** ** Sessions over time *)

(** X10. In every session the component can reach from its mount, the token
    in the state and the persisted token go together: either both are
    absent, or the token is not [null] and the persisted item is the string
    [localStorage] keeps for it. *)
Theorem reachable_token_persisted env ToString w :
  reachable env ToString w -> token_persisted ToString w.
Proof.
  induction 1 as [persisted|backend op w _ IH].
  - destruct persisted as [s|]; [right|left]; [|done].
    split; [done|]. by exists s.
  - by apply after_token_persisted.
Qed.

Lemma reachable_token_persisted_witness :
  token_persisted no_conversion
    (after None
       (answers (obj [("user", obj [("role", JStr "admin")]);
                      ("access_token", JStr "t")]))
       no_conversion (Login (JStr "a@b.com") (JStr "pw")) (mount (Some "old"))).
Proof.
  apply (reachable_token_persisted None no_conversion).
  apply reachable_after, reachable_mount.
Defined.

(** X11. No operation ends with a missing user beside a usable persisted
    token: after [initializeAuth], [login], [register] or [logout], from any
    session and whatever the backend did, a user that is [null] or
    [undefined] comes with no persisted token, or an empty one. *)
Theorem no_user_no_persisted_token env backend ToString op w :
  nullish (user (after env backend ToString op w)) = true ->
  stored (after env backend ToString op w) = None \/
  stored (after env backend ToString op w) = Some "".
Proof. intros Hu. by apply falsy_item, after_without_user. Qed.

Lemma no_user_no_persisted_token_witness :
  stored (after None (rejects network_error) no_conversion
            (Login (JStr "a@b.com") (JStr "pw")) signed_in) = None \/
  stored (after None (rejects network_error) no_conversion
            (Login (JStr "a@b.com") (JStr "pw")) signed_in) = Some "".
Proof.
  apply (no_user_no_persisted_token None (rejects network_error) no_conversion
           (Login (JStr "a@b.com") (JStr "pw")) signed_in).
  reflexivity.
Defined.

(** X12. Once an operation has left the session without a user, running
    [initializeAuth] again (a reload of the page) sends no request and
    leaves the session without a user, the persisted item untouched; this
    holds after every [logout]. *)
Theorem initializeAuth_after_no_user env backend backend' ToString op w :
  let w' := after env backend ToString op w in
  (op = Logout \/ nullish (user w') = true) ->
  let o := initializeAuth env backend' ToString w' in
  requests (emitted o) = [] /\
  user (final o) = JNull /\
  token (final o) = token w' /\
  stored (final o) = stored w' /\
  loading (final o) = false.
Proof.
  intros w' Hop o. subst o.
  assert (nullish (user w') = true) as Hu.
  { destruct Hop as [-> | Hu]; [|done]. subst w'. cbn [after].
    by destruct (logout_outcomes env backend w) as (_ & -> & _). }
  pose proof (after_without_user env backend ToString op w Hu) as Hs.
  fold w' in Hs.
  by rewrite (initializeAuth_no_item env backend' ToString w' Hs).
Qed.

Lemma initializeAuth_after_no_user_witness :
  requests
    (emitted (initializeAuth None (answers JNull) no_conversion
                (after None (rejects network_error) no_conversion Logout
                   signed_in))) = [].
Proof.
  apply (initializeAuth_after_no_user None (rejects network_error)
           (answers JNull) no_conversion Logout signed_in).
  left. reflexivity.
Defined.

(** X13. The token a successful login stores is the credential of the
    requests that follow: after a login answered with a user record and a
    non-empty access token [t], the next [initializeAuth] sends its request
    with [Bearer t], and so does the next [logout]. *)
Theorem next_requests_carry_the_login_token
    env backend backend' ToString w email password r t :
  backend (login_request env w email password) = inl r ->
  nullish (own (data r) "user") = false ->
  own (data r) "access_token" = JStr t -> t <> "" ->
  let w' := final (login env backend ToString email password w) in
  requests (emitted (initializeAuth env backend' ToString w')) =
  [{| method := GET; url := API env +:+ "/auth/me/"; body := JUndefined;
      Authorization := Some ("Bearer " +:+ t) |}] /\
  requests (emitted (logout env backend' w')) =
  [{| method := POST; url := API env +:+ "/auth/logout/"; body := JUndefined;
      Authorization := Some ("Bearer " +:+ t) |}].
Proof.
  intros Hb Hu Ha Hne w'.
  assert (truthy (own (data r) "access_token") = true) as Ht
    by (rewrite Ha; by apply truthy_JStr).
  assert (bearer w' = Some ("Bearer " +:+ t)) as Hbearer.
  { subst w'.
    rewrite (login_with_token env backend ToString _ _ _ r t Hb Hu Ht)
      by (by rewrite Ha).
    unfold bearer. cbn. destruct (String.eqb_spec t ""); [done|done]. }
  split.
  - destruct (initializeAuth_outcomes env backend' ToString w')
      as (_ & _ & -> & _).
    destruct (truthy (item w')) eqn:Hi.
    + unfold me_request. by rewrite interceptor_bearer, Hbearer.
    + apply bearer_item in Hi. congruence.
  - destruct (logout_outcomes env backend' w') as (_ & _ & -> & _).
    unfold logout_request. by rewrite interceptor_bearer, Hbearer.
Qed.

Lemma next_requests_carry_the_login_token_witness :
  let body := obj [("user", obj [("role", JStr "admin")]);
                   ("access_token", JStr "t")] in
  let w' := final (login None (answers body) no_conversion (JStr "a@b.com")
                     (JStr "pw") signed_in) in
  requests (emitted (initializeAuth None (rejects network_error)
                       no_conversion w')) =
  [{| method := GET; url := "/api/auth/me/"; body := JUndefined;
      Authorization := Some "Bearer t" |}].
Proof.
  cbn zeta.
  apply (next_requests_carry_the_login_token None
           (answers (obj [("user", obj [("role", JStr "admin")]);
                          ("access_token", JStr "t")]))
           (rejects network_error) no_conversion signed_in (JStr "a@b.com")
           (JStr "pw")
           {| data := obj [("user", obj [("role", JStr "admin")]);
                           ("access_token", JStr "t")] |} "t");
    [reflexivity|reflexivity|reflexivity|discriminate].
Defined.

(** X14. [logout] is idempotent on the session: a second [logout] leaves
    the session the first one left, and its request carries no
    Authorization header, the token being gone. *)
Theorem logout_twice env backend backend' w :
  let w' := final (logout env backend w) in
  final (logout env backend' w') = w' /\
  requests (emitted (logout env backend' w')) =
  [{| method := POST; url := API env +:+ "/auth/logout/"; body := JUndefined;
      Authorization := None |}].
Proof.
  intros w'.
  destruct (logout_outcomes env backend w) as (_ & Hf & _). fold w' in Hf.
  destruct (logout_outcomes env backend' w') as (_ & Hf' & Hr & _).
  split.
  - rewrite Hf'. by rewrite Hf.
  - rewrite Hr. unfold logout_request. rewrite interceptor_bearer.
    unfold bearer. by rewrite Hf.
Qed.

(** X15. The only session the component can be in with a usable persisted
    token but no user is the one it mounts with, before any operation has
    run: once an operation has completed, a missing user means no usable
    persisted token. *)
Theorem token_without_user_only_at_mount env ToString w st :
  reachable env ToString w ->
  nullish (user w) = true ->
  stored w = Some st -> st <> "" ->
  w = mount (Some st).
Proof.
  intros Hreach Hu Hw Hst. destruct Hreach as [persisted|backend op w _].
  - cbn in Hw. by rewrite Hw.
  - pose proof (after_without_user env backend ToString op w Hu) as Hi.
    by rewrite (truthy_item _ st Hw Hst) in Hi.
Qed.

Lemma token_without_user_only_at_mount_witness :
  mount (Some "old") = mount (Some "old").
Proof.
  apply (token_without_user_only_at_mount None no_conversion
           (mount (Some "old")) "old");
    [apply reachable_mount|reflexivity|reflexivity|discriminate].
Defined.

(** X16. A registration the backend rejects is reported and undone: the
    call returns [{ success: false }] with the message chosen from the
    error, logs the response payload when it is truthy and the error's own
    message otherwise, makes no navigation, and leaves the session logged
    out, whatever session was there before. *)
Theorem register_rejected_logs_out env backend ToString w email password name role e :
  backend (register_request env w email password name role) = inr e ->
  let o := register env backend ToString email password name role w in
  result o =
  Normal (failure_result (failure_message e "Registration failed")) /\
  final o = logged_out /\
  navigations (emitted o) = [] /\
  (truthy (response_data e) = true ->
   ConsoleError "Registration error:" (LogValue (response_data e)) ∈ emitted o) /\
  (truthy (response_data e) = false ->
   ConsoleError "Registration error:" (LogValue (JStr (message e))) ∈ emitted o).
Proof.
  intros Hb o. subst o.
  rewrite (register_rejected env backend ToString _ _ _ _ _ e Hb). cbn.
  split; [done|]. split; [done|]. split; [done|]. split.
  - intros Hd. rewrite (js_or_truthy _ _ Hd). occurs.
  - intros Hd. rewrite (js_or_falsy _ _ Hd). occurs.
Qed.

Lemma register_rejected_logs_out_witness :
  final (register None (rejects network_error) no_conversion (JStr "a@b.com")
           (JStr "pw") (JStr "Ann") JUndefined signed_in) = logged_out.
Proof.
  apply (register_rejected_logs_out None (rejects network_error) no_conversion
           signed_in (JStr "a@b.com") (JStr "pw") (JStr "Ann") JUndefined
           network_error).
  reflexivity.
Defined.
